(** * MOMENTS: a shallow embedding of [App.tsx]

    The application keeps a collection of moments in React state and
    derives every view from it.  The embedding follows the source
    component by component: state cells become record fields or function
    arguments, event handlers become functions from state to state, and
    what the handlers do to the outside world (notifications, alerts,
    [localStorage]) is returned next to the new state.

    Numbers are JavaScript numbers restricted to the integers the program
    computes with, [None] standing for [NaN]; time values are
    milliseconds since the epoch. *)

From stdpp Require Import base tactics option list numbers strings gmap sorting.

Local Open Scope Z_scope.

(** ** Data model *)

(** Modelled from the spec: [./types] is imported by [App.tsx] but is
    not among the sources.  The enumerations below list the members the
    source names ([MomentType.STUDY], [Priority.HIGH], [EmotionType.HAPPY],
    the status literals, the views switched on in [App]); the shape of
    the records is the one of the object literals in [handleSave],
    [handleSaveReflection] and [addEmotionLog].  [EmotionType] has further
    members besides the four the source names (the spec's neutral class);
    they are kept apart by their tag. *)
Inductive MomentType := STUDY | WORK | PERSONAL | TRAVEL | GOAL.
Inductive Priority := LOW | MEDIUM | HIGH.
Inductive EmotionType :=
  HAPPY | EXCITED | WORRIED | STRESSED | OtherEmotion (tag : string).
Inductive Status := active | completed | archived.
Inductive ViewState :=
  dashboard | create | details | edit | stats | settings | memory.
Inductive Permission := default_permission | granted | denied.
Inductive Lang := en | ar.

(** A [date] cell (of a moment or of a form) holds the empty string, which
    is the initial state of the create form, or a date-only string
    [YYYY-MM-DD] as [<input type="date">] and
    [toISOString().split('T')[0]] produce them.  A date-only string is
    represented by the number of its day, counted from 1970-01-01. *)
Inductive DateString := EmptyDate | IsoDate (day : Z).

(** A full ISO time stamp, as [new Date().toISOString()] returns it, is
    represented by its time value. *)
Definition ISOString := Z.

(** Modelled from the spec: the record types of [./types], with the
    fields the source reads and writes.  Optional fields ([note],
    [reflection]) are options. *)
Record Task := {
  Task_id : string;
  text : string;
  isCompleted : bool
}.

Record EmotionLog := {
  EmotionLog_id : string;
  EmotionLog_date : ISOString;
  emotion : EmotionType;
  note : option string
}.

Record Reflection := {
  rating : Z;
  lessons : string;
  repeatable : bool;
  completedDate : ISOString
}.

Record Moment := {
  id : string;
  title : string;
  date : DateString;
  type : MomentType;
  priority : Priority;
  initialEmotion : EmotionType;
  notes : string;
  tasks : list Task;
  status : Status;
  createdAt : ISOString;
  emotionHistory : list EmotionLog;
  reflection : option Reflection
}.

Global Instance MomentType_eq_dec : EqDecision MomentType.
Proof. solve_decision. Defined.
Global Instance Priority_eq_dec : EqDecision Priority.
Proof. solve_decision. Defined.
Global Instance EmotionType_eq_dec : EqDecision EmotionType.
Proof. solve_decision. Defined.
Global Instance Status_eq_dec : EqDecision Status.
Proof. solve_decision. Defined.
Global Instance ViewState_eq_dec : EqDecision ViewState.
Proof. solve_decision. Defined.
Global Instance Permission_eq_dec : EqDecision Permission.
Proof. solve_decision. Defined.
Global Instance DateString_eq_dec : EqDecision DateString.
Proof. solve_decision. Defined.

(** ** Dates and time zones *)

Definition msPerDay : Z := 1000 * 3600 * 24.

(** The host's time zone, as ECMAScript sees it: the offset of local time
    from UTC in milliseconds, looked up at a UTC time value
    ([LocalTZA(t, true)]) or at a local one ([LocalTZA(t, false)]). *)
Record TimeZone := {
  LocalTZA_utc : Z → Z;
  LocalTZA_local : Z → Z
}.

Definition LocalTime (tz : TimeZone) (t : Z) : Z := t + LocalTZA_utc tz t.
Definition UTC (tz : TimeZone) (t : Z) : Z := t - LocalTZA_local tz t.
Definition Day (t : Z) : Z := t / msPerDay.
Definition TimeWithinDay (t : Z) : Z := t mod msPerDay.

(** A zone without daylight saving: one offset all year. *)
Definition fixedZone (offset : Z) : TimeZone :=
  {| LocalTZA_utc := λ _, offset; LocalTZA_local := λ _, offset |}.

(** A zone that is at [offset] in winter and one hour ahead of it from the
    UTC instant [start] up to the UTC instant [stop].  A local time the
    clocks skip or show twice is read with the offset in force before
    the change. *)
Definition dstZone (offset start stop : Z) : TimeZone :=
  {| LocalTZA_utc := λ t,
       if decide (start ≤ t < stop) then offset + 3600000 else offset;
     LocalTZA_local := λ t,
       if decide (start + offset + 3600000 ≤ t < stop + offset + 3600000)
       then offset + 3600000 else offset |}.

(** [new Date(s).getTime()] for a date cell: a date-only string is read
    as midnight UTC, the empty string gives an invalid date ([NaN]). *)
Definition getTime (s : DateString) : option Z :=
  match s with
  | EmptyDate => None
  | IsoDate d => Some (d * msPerDay)
  end.

(** [new Date().setHours(0,0,0,0)]: midnight of the current local day, as
    a time value. *)
Definition setHours0 (tz : TimeZone) (now : Z) : Z :=
  UTC tz (Day (LocalTime tz now) * msPerDay).

(** [Math.ceil (a / b)] for integers [a] and [b > 0].  The source divides
    in floating point; for differences of time values of dates and a
    divisor of one day a quotient that is not an integer stays clear of
    the integers by more than the rounding error, so the ceiling is the
    exact one. *)
Definition ceilDiv (a b : Z) : Z := - ((- a) / b).

(** [new Date().toDateString()] names the local calendar day; the string
    is represented by the number of that day. *)
Definition toDateString (tz : TimeZone) (now : Z) : Z := Day (LocalTime tz now).

Definition getDaysRemaining (tz : TimeZone) (now : Z) (targetDate : DateString)
  : option Z :=
  diff ← (λ t, t - setHours0 tz now) <$> getTime targetDate;
  Some (ceilDiv diff (1000 * 3600 * 24)).

(** Comparisons of a number that may be [NaN] against an integer: every
    comparison with [NaN] is false. *)
Definition num_le (x : option Z) (k : Z) : bool :=
  match x with Some v => bool_decide (v ≤ k) | None => false end.
Definition num_lt (x : option Z) (k : Z) : bool :=
  match x with Some v => bool_decide (v < k) | None => false end.
Definition num_eq (x : option Z) (k : Z) : bool :=
  match x with Some v => bool_decide (v = k) | None => false end.

(** ** [Array.prototype.sort] *)

(** The sort is stable and orders by the sign of the comparator; a
    comparator result of [NaN] counts as [0].  Where the comparator is
    not a consistent order of the elements, as when a date is empty and
    some comparisons are [NaN], the language leaves the order of the
    result to the engine: the model then gives one permutation of the
    elements, which need not be the engine's.  What is stated about the
    order of a sorted list is stated for collections in which every
    moment has a date. *)
Section sort.
Context {A : Type} (comparefn : A → A → option Z).

Definition SortCompare (x y : A) : Z := default 0 (comparefn x y).

Fixpoint sort_insert (x : A) (l : list A) : list A :=
  match l with
  | [] => [x]
  | y :: l' =>
      if decide (SortCompare x y ≤ 0) then x :: l
      else y :: sort_insert x l'
  end.

Definition sort (l : list A) : list A := foldr sort_insert [] l.
End sort.

(** ** The application state and the repository operations of [App] *)

Record AppState := {
  moments : list Moment;
  view : ViewState;
  selectedMomentId : option string;
  lang : Lang;
  notificationPermission : Permission
}.

Definition setMoments (ms : list Moment) (st : AppState) : AppState :=
  {| moments := ms; view := view st;
     selectedMomentId := selectedMomentId st; lang := lang st;
     notificationPermission := notificationPermission st |}.

Definition setView (v : ViewState) (st : AppState) : AppState :=
  {| moments := moments st; view := v;
     selectedMomentId := selectedMomentId st; lang := lang st;
     notificationPermission := notificationPermission st |}.

Definition setSelectedMomentId (i : option string) (st : AppState) : AppState :=
  {| moments := moments st; view := view st;
     selectedMomentId := i; lang := lang st;
     notificationPermission := notificationPermission st |}.

Definition setNotificationPermission (p : Permission) (st : AppState) : AppState :=
  {| moments := moments st; view := view st;
     selectedMomentId := selectedMomentId st; lang := lang st;
     notificationPermission := p |}.

(** The comparators of [activeMoments] and [completedMoments]. *)
Definition byDateAsc (a b : Moment) : option Z :=
  ta ← getTime (date a); tb ← getTime (date b); Some (ta - tb).
Definition byDateDesc (a b : Moment) : option Z :=
  tb ← getTime (date b); ta ← getTime (date a); Some (tb - ta).

Definition activeMoments (ms : list Moment) : list Moment :=
  sort byDateAsc (filter (λ m, status m = active) ms).

Definition completedMoments (ms : list Moment) : list Moment :=
  sort byDateDesc
    (filter (λ m, status m = completed ∨ status m = archived) ms).

Definition addMoment (moment : Moment) (st : AppState) : AppState :=
  setView dashboard (setMoments (moments st ++ [moment]) st).

Definition updateMoment (updatedMoment : Moment) (st : AppState) : AppState :=
  setMoments
    ((λ m, if decide (id m = id updatedMoment) then updatedMoment else m)
       <$> moments st)
    st.

Definition deleteMoment (i : string) (st : AppState) : AppState :=
  let st' := setMoments (filter (λ m, id m ≠ i) (moments st)) st in
  if decide (selectedMomentId st = Some i)
  then setView dashboard (setSelectedMomentId None st')
  else st'.

(** [moments.find(m => m.id === selectedMomentId)], the first line of the
    detail, edit and reflection views. *)
Definition selectedMoment (st : AppState) : option Moment :=
  i ← selectedMomentId st;
  snd <$> list_find (λ m, id m = i) (moments st).

(** ** [DashboardView] *)

Inductive Vibe := chill | balanced | hectic.

Definition urgentMoments (tz : TimeZone) (now : Z) (ms : list Moment) : list Moment :=
  filter (λ m, num_le (getDaysRemaining tz now (date m)) 7 ∧ priority m = HIGH)
    (activeMoments ms).

Definition veryUrgentMoments (tz : TimeZone) (now : Z) (ms : list Moment) : list Moment :=
  filter (λ m, num_le (getDaysRemaining tz now (date m)) 1 : Prop)
    (activeMoments ms).

Definition stressScore (tz : TimeZone) (now : Z) (ms : list Moment) : nat :=
  (length (urgentMoments tz now ms) * 2 + length (activeMoments ms))%nat.

Definition vibe (tz : TimeZone) (now : Z) (ms : list Moment) : Vibe :=
  let stressScore := stressScore tz now ms in
  let vibe := chill in
  let vibe := if decide (5 < stressScore)%nat then balanced else vibe in
  let vibe := if decide (10 < stressScore)%nat then hectic else vibe in
  vibe.

(** ** [CreateMomentView] *)

(** [generateId] draws from [Math.random] and [new Date()] reads the
    clock: the [k]-th call of a handler to either is given by a
    function of [k]. *)
Definition handleSave (generateId : nat → string) (clock : nat → ISOString)
    (title : string) (date : DateString) (type : MomentType)
    (priority : Priority) (tasks : list string) (emotion : EmotionType)
    (notes : string) (st : AppState) : AppState :=
  if decide (title = EmptyString ∨ date = EmptyDate) then st
  else
    let newMoment :=
      {| id := generateId 0%nat;
         title := title;
         date := date;
         type := type;
         priority := priority;
         initialEmotion := emotion;
         notes := notes;
         tasks := imap (λ k txt, {| Task_id := generateId (S k);
                                    text := txt;
                                    isCompleted := false |}) tasks;
         status := active;
         createdAt := clock 0%nat;
         emotionHistory :=
           [ {| EmotionLog_id := generateId (S (length tasks));
                EmotionLog_date := clock 1%nat;
                emotion := emotion;
                note := Some "Initial feeling" |} ];
         reflection := None |} in
    addMoment newMoment st.

(** ** [EditMomentView] *)

(** The view renders nothing, and so offers no handler, when no moment
    is selected. *)
Definition handleUpdate (title : string) (date : DateString)
    (type : MomentType) (priority : Priority) (notes : string)
    (tasks : list Task) (st : AppState) : AppState :=
  match selectedMoment st with
  | None => st
  | Some moment =>
      if decide (title = EmptyString ∨ date = EmptyDate) then st
      else
        let updatedMoment :=
          {| id := id moment;
             title := title;
             date := date;
             type := type;
             priority := priority;
             initialEmotion := initialEmotion moment;
             notes := notes;
             tasks := tasks;
             status := status moment;
             createdAt := createdAt moment;
             emotionHistory := emotionHistory moment;
             reflection := reflection moment |} in
        setView details (updateMoment updatedMoment st)
  end.

(** ** [MemoryReflectionView] *)

(** The stars of the rating row: [[1, 2, 3, 4, 5].map(star => ...)]. *)
Definition stars : list Z := [1; 2; 3; 4; 5].

(** The [rating] cell starts at [0] and is only ever set by a click on a
    star. *)
Inductive rating_cell : Z → Prop :=
  | rating_initial : rating_cell 0
  | rating_setRating star r : star ∈ stars → rating_cell r → rating_cell star.

Definition handleSaveReflection (clock : nat → ISOString) (rating : Z)
    (lessons : string) (repeatable : option bool) (st : AppState) : AppState :=
  match selectedMoment st with
  | None => st
  | Some moment =>
      if decide (rating = 0) then st
      else
        let reflection :=
          {| rating := rating;
             lessons := lessons;
             repeatable := default false repeatable;
             completedDate := clock 0%nat |} in
        setView dashboard
          (updateMoment
             {| id := id moment;
                title := title moment;
                date := date moment;
                type := type moment;
                priority := priority moment;
                initialEmotion := initialEmotion moment;
                notes := notes moment;
                tasks := tasks moment;
                status := completed;
                createdAt := createdAt moment;
                emotionHistory := emotionHistory moment;
                reflection := Some reflection |} st)
  end.

(** ** [DetailMomentView] *)

Definition isPast (tz : TimeZone) (now : Z) (moment : Moment) : bool :=
  num_lt (getDaysRemaining tz now (date moment)) 0
  && bool_decide (status moment = active).

Definition toggleTask (taskId : string) (moment : Moment) (st : AppState) : AppState :=
  let updatedTasks :=
    (λ t, if decide (Task_id t = taskId)
          then {| Task_id := Task_id t; text := text t;
                  isCompleted := negb (isCompleted t) |}
          else t) <$> tasks moment in
  updateMoment
    {| id := id moment; title := title moment; date := date moment;
       type := type moment; priority := priority moment;
       initialEmotion := initialEmotion moment; notes := notes moment;
       tasks := updatedTasks;
       status := status moment; createdAt := createdAt moment;
       emotionHistory := emotionHistory moment;
       reflection := reflection moment |} st.

Definition addEmotionLog (generateId : nat → string) (clock : nat → ISOString)
    (emo : EmotionType) (moment : Moment) (st : AppState) : AppState :=
  let newLog :=
    {| EmotionLog_id := generateId 0%nat;
       EmotionLog_date := clock 0%nat;
       emotion := emo;
       note := None |} in
  updateMoment
    {| id := id moment; title := title moment; date := date moment;
       type := type moment; priority := priority moment;
       initialEmotion := initialEmotion moment; notes := notes moment;
       tasks := tasks moment;
       status := status moment; createdAt := createdAt moment;
       emotionHistory := emotionHistory moment ++ [newLog];
       reflection := reflection moment |} st.

Definition completeMoment (st : AppState) : AppState := setView memory st.

(** [d.setDate(d.getDate() + n)] on the time value [t].  [setDate] works
    on local time: it keeps the local time of day and moves to day
    [dt] of the local month, [MakeDay(year, month, dt)], which for
    [dt = getDate() + n] is the local day of [t] plus [n]; the result
    is converted back to UTC. *)
Definition setDate_getDate_plus (tz : TimeZone) (n : Z) (t : Z) : Z :=
  let local := LocalTime tz t in
  UTC tz ((Day local + n) * msPerDay + TimeWithinDay local).

(** [d.toISOString().split('T')[0]]: the UTC calendar day of a time
    value. *)
Definition toISODate (t : Z) : DateString := IsoDate (Day t).

(** The date the postpone button computes; [toISOString] throws a
    [RangeError] on an invalid date ([None]).  Time values are not
    clipped to the range of [Date], which ends 100000000 days either
    side of the epoch: for a date within seven days of the last one the
    handler throws where the model gives a date.  What is stated for
    all dates about the result is stated for dates up to [maxDay - 7]. *)
Definition postponedDate (tz : TimeZone) (s : DateString) : option DateString :=
  t ← getTime s;
  Some (toISODate (setDate_getDate_plus tz 7 t)).

(** The click handler of the postpone button.  An exception in a handler
    leaves the state as it was. *)
Definition postpone (tz : TimeZone) (moment : Moment) (st : AppState) : AppState :=
  match postponedDate tz (date moment) with
  | None => st
  | Some d =>
      updateMoment
        {| id := id moment; title := title moment; date := d;
           type := type moment; priority := priority moment;
           initialEmotion := initialEmotion moment; notes := notes moment;
           tasks := tasks moment;
           status := status moment; createdAt := createdAt moment;
           emotionHistory := emotionHistory moment;
           reflection := reflection moment |} st
  end.

(** ** [StatsView] *)

(** An entry of [allLogs].  Its [label] is the date again, formatted for
    display, and is left out. *)
Record EmotionPoint := {
  point_date : Z;
  score : Z
}.

Definition emotionScore (e : EmotionType) : Z :=
  let score := 3 in
  let score := if decide (e = HAPPY ∨ e = EXCITED) then 5 else score in
  let score := if decide (e = WORRIED ∨ e = STRESSED) then 1 else score in
  score.

Definition allLogs (ms : list Moment) : list EmotionPoint :=
  m ← ms;
  log ← emotionHistory m;
  [ {| point_date := EmotionLog_date log; score := emotionScore (emotion log) |} ].

Definition emotionData (ms : list Moment) : list EmotionPoint :=
  sort (λ a b, Some (point_date a - point_date b)) (allLogs ms).

(** ** The notification check of [App] *)

(** The part of [localStorage] the check reads and writes.  A key
    [`notified-${m.id}-${new Date().toDateString()}`] is represented by
    the pair of the moment's id and the local day. *)
Abbreviation Storage := (gmap (string * Z) string).

Definition notifiedKey (tz : TimeZone) (now : Z) (m : Moment) : string * Z :=
  (id m, toDateString tz now).

(** [!localStorage.getItem(key)]: true when the key is absent, and for
    the empty string. *)
Definition notYetNotified (localStorage : Storage) (key : string * Z) : bool :=
  match localStorage !! key with
  | None => true
  | Some v => bool_decide (v = EmptyString)
  end.

(** The body of [upcoming.forEach]; the list collects the moments a
    [new Notification("MOMENTS", ...)] was shown for. *)
Definition notifyMoment (tz : TimeZone) (now : Z)
    (acc : list Moment * Storage) (m : Moment) : list Moment * Storage :=
  let key := notifiedKey tz now m in
  if notYetNotified acc.2 key
  then (acc.1 ++ [m], <[key := "true"]> acc.2)
  else acc.

Definition upcoming (tz : TimeZone) (now : Z) (ms : list Moment) : list Moment :=
  filter (λ m, let days := getDaysRemaining tz now (date m) in
               num_eq days 0 ∨ num_eq days 1)
    (activeMoments ms).

(** [NotificationInWindow] is ['Notification' in window]. *)
Definition notificationsCheck (tz : TimeZone) (now : Z)
    (NotificationInWindow : bool) (st : AppState) (localStorage : Storage)
  : list Moment * Storage :=
  if bool_decide (0 < length (activeMoments (moments st)))%nat
     && NotificationInWindow
     && bool_decide (notificationPermission st = granted)
  then foldl (notifyMoment tz now) ([], localStorage) (upcoming tz now (moments st))
  else ([], localStorage).

(** The check run once after each of a series of renders, each with its
    own clock reading and state, on one [localStorage]. *)
Fixpoint notificationsChecks (tz : TimeZone) (NotificationInWindow : bool)
    (renders : list (Z * AppState)) (localStorage : Storage)
  : list (Moment * Z) * Storage :=
  match renders with
  | [] => ([], localStorage)
  | (now, st) :: renders' =>
      let r := notificationsCheck tz now NotificationInWindow st localStorage in
      let r' := notificationsChecks tz NotificationInWindow renders' r.2 in
      (((λ m, (m, toDateString tz now)) <$> r.1) ++ r'.1, r'.2)
  end.

(** ** User events *)

(** What the user can do, with the contents of the form cells at the
    time of the click. *)
Inductive Event :=
  | NavBar (v : ViewState)
  | Back
  | OpenMoment (i : string)
  | ClickEdit
  | ClickSave (title : string) (date : DateString) (type : MomentType)
      (priority : Priority) (tasks : list string) (emotion : EmotionType)
      (notes : string)
  | ClickUpdate (title : string) (date : DateString) (type : MomentType)
      (priority : Priority) (notes : string) (tasks : list Task)
  | ClickSaveReflection (rating : Z) (lessons : string) (repeatable : option bool)
  | ClickTask (taskId : string)
  | ClickEmotion (emo : EmotionType)
  | ClickComplete
  | ClickPostpone
  | ClickDelete
  | PermissionAnswer (p : Permission).

(** The targets of the buttons of the bottom navigation. *)
Definition navTarget (v : ViewState) : bool :=
  bool_decide (v = dashboard ∨ v = create ∨ v = stats ∨ v = settings).

(** One event, handled by the component that is on screen.  The bottom
    navigation is shown on the dashboard, stats and settings views only;
    the dashboard lists the first three active moments; the detail, edit
    and memory views render nothing without a selected moment, and the
    detail view offers other buttons for a past-due moment than for one
    that is not.  The answer to the permission request arrives on
    whatever view is shown by then. *)
Definition step (tz : TimeZone) (now : Z) (generateId : nat → string)
    (clock : nat → ISOString) (st : AppState) (ev : Event) : AppState :=
  match ev with
  | PermissionAnswer p => setNotificationPermission p st
  | _ =>
    match view st with
    | dashboard =>
        match ev with
        | NavBar v => if navTarget v then setView v st else st
        | OpenMoment i =>
            if decide (i ∈ id <$> take 3 (activeMoments (moments st)))
            then setView details (setSelectedMomentId (Some i) st)
            else st
        | _ => st
        end
    | stats | settings =>
        match ev with
        | NavBar v => if navTarget v then setView v st else st
        | _ => st
        end
    | create =>
        match ev with
        | Back => setView dashboard st
        | ClickSave title date type priority tasks emotion notes =>
            handleSave generateId clock title date type priority tasks
              emotion notes st
        | _ => st
        end
    | details =>
        match selectedMoment st with
        | None => st
        | Some moment =>
            if isPast tz now moment then
              match ev with
              | Back => setView dashboard st
              | ClickComplete => completeMoment st
              | ClickPostpone => postpone tz moment st
              | _ => st
              end
            else
              match ev with
              | Back => setView dashboard st
              | ClickEdit => setView edit st
              | ClickDelete => deleteMoment (id moment) st
              | ClickTask taskId => toggleTask taskId moment st
              | ClickEmotion emo => addEmotionLog generateId clock emo moment st
              | _ => st
              end
        end
    | edit =>
        match selectedMoment st with
        | None => st
        | Some _ =>
            match ev with
            | Back => setView details st
            | ClickUpdate title date type priority notes tasks =>
                handleUpdate title date type priority notes tasks st
            | _ => st
            end
        end
    | memory =>
        match selectedMoment st with
        | None => st
        | Some _ =>
            match ev with
            | Back => setView dashboard st
            | ClickSaveReflection rating lessons repeatable =>
                handleSaveReflection clock rating lessons repeatable st
            | _ => st
            end
        end
    end
  end.

(** ** [handleMagicPlan] *)

(** The opening lines of the handler are cut off in the source as it
    stands; it begins inside the [try] block, at the [fetch].  The
    response of the service is whatever [res.json()] makes of it. *)
#[local] Unset Elimination Schemes.
Inductive JSON :=
  | JNull
  | JBool (b : bool)
  | JNumber (n : Z)
  | JString (s : string)
  | JArray (items : list JSON)
  | JObject (fields : list (string * JSON)).
#[local] Set Elimination Schemes.

(** A cell of the create form at run time: the casts [as MomentType] and
    [as Priority] are erased, so a cell holds whatever was read from the
    response; [None] is [undefined]. *)
Definition JSValue := option JSON.

Inductive Response :=
  | FetchRejected
  | BodyNotJSON
  | Parsed (data : JSON).

Inductive Effect :=
  | console_error (msg : string)
  | alert (msg : string).

Record CreateCells := {
  title_cell : JSValue;
  type_cell : JSValue;
  priority_cell : JSValue;
  notes_cell : JSValue;
  tasks_cell : JSValue;
  showMagicInput : bool;
  magicInput : string;
  isGenerating : bool
}.

Fixpoint assoc (k : string) (fields : list (string * JSON)) : JSValue :=
  match fields with
  | [] => None
  | (k', v) :: rest => if decide (k' = k) then Some v else assoc k rest
  end.

(** Reading a property: a [TypeError] on [null] (the outer [None]),
    [undefined] where the value has no such property. *)
Definition getProp (data : JSON) (k : string) : option JSValue :=
  match data with
  | JNull => None
  | JObject fields => Some (assoc k fields)
  | _ => Some None
  end.

Definition setTitle (v : JSValue) (c : CreateCells) : CreateCells :=
  {| title_cell := v; type_cell := type_cell c; priority_cell := priority_cell c;
     notes_cell := notes_cell c; tasks_cell := tasks_cell c;
     showMagicInput := showMagicInput c; magicInput := magicInput c;
     isGenerating := isGenerating c |}.
Definition setType (v : JSValue) (c : CreateCells) : CreateCells :=
  {| title_cell := title_cell c; type_cell := v; priority_cell := priority_cell c;
     notes_cell := notes_cell c; tasks_cell := tasks_cell c;
     showMagicInput := showMagicInput c; magicInput := magicInput c;
     isGenerating := isGenerating c |}.
Definition setPriority (v : JSValue) (c : CreateCells) : CreateCells :=
  {| title_cell := title_cell c; type_cell := type_cell c; priority_cell := v;
     notes_cell := notes_cell c; tasks_cell := tasks_cell c;
     showMagicInput := showMagicInput c; magicInput := magicInput c;
     isGenerating := isGenerating c |}.
Definition setNotes (v : JSValue) (c : CreateCells) : CreateCells :=
  {| title_cell := title_cell c; type_cell := type_cell c;
     priority_cell := priority_cell c;
     notes_cell := v; tasks_cell := tasks_cell c;
     showMagicInput := showMagicInput c; magicInput := magicInput c;
     isGenerating := isGenerating c |}.
Definition setTasks (v : JSValue) (c : CreateCells) : CreateCells :=
  {| title_cell := title_cell c; type_cell := type_cell c;
     priority_cell := priority_cell c;
     notes_cell := notes_cell c; tasks_cell := v;
     showMagicInput := showMagicInput c; magicInput := magicInput c;
     isGenerating := isGenerating c |}.
Definition setShowMagicInput (b : bool) (c : CreateCells) : CreateCells :=
  {| title_cell := title_cell c; type_cell := type_cell c;
     priority_cell := priority_cell c;
     notes_cell := notes_cell c; tasks_cell := tasks_cell c;
     showMagicInput := b; magicInput := magicInput c;
     isGenerating := isGenerating c |}.
Definition setMagicInput (s : string) (c : CreateCells) : CreateCells :=
  {| title_cell := title_cell c; type_cell := type_cell c;
     priority_cell := priority_cell c;
     notes_cell := notes_cell c; tasks_cell := tasks_cell c;
     showMagicInput := showMagicInput c; magicInput := s;
     isGenerating := isGenerating c |}.
Definition setIsGenerating (b : bool) (c : CreateCells) : CreateCells :=
  {| title_cell := title_cell c; type_cell := type_cell c;
     priority_cell := priority_cell c;
     notes_cell := notes_cell c; tasks_cell := tasks_cell c;
     showMagicInput := showMagicInput c; magicInput := magicInput c;
     isGenerating := b |}.

(** Statements of a [try] block run on the cells until one throws: the
    result is the cells as the statements that ran left them, and
    whether the block threw. *)
Definition Try := CreateCells → CreateCells * bool.

Definition andThen (s1 s2 : Try) : Try :=
  λ c, let r := s1 c in if r.2 then r else s2 r.1.

(** [set(data.k)]: read the property, then call the setter. *)
Definition assign (set : JSValue → CreateCells → CreateCells)
    (data : JSON) (k : string) : Try :=
  λ c, match getProp data k with
       | None => (c, true)
       | Some v => (set v c, false)
       end.

Definition call (f : CreateCells → CreateCells) : Try := λ c, (f c, false).

Definition throw : Try := λ c, (c, true).

Definition magicPlanTry (resp : Response) : Try :=
  match resp with
  | FetchRejected => throw
  | BodyNotJSON => throw
  | Parsed data =>
      andThen (assign setTitle data "title")
     (andThen (assign setType data "type")
     (andThen (assign setPriority data "priority")
     (andThen (assign setNotes data "notes")
     (andThen (assign setTasks data "tasks")
     (andThen (call (setShowMagicInput false))
              (call (setMagicInput EmptyString)))))))
  end.

Definition handleMagicPlan (lang : Lang) (resp : Response) (c : CreateCells)
  : CreateCells * list Effect :=
  let r := magicPlanTry resp c in
  let caught :=
    if r.2
    then [ console_error "AI Generation failed";
           alert (match lang with
                  | ar => "حدث خطأ أثناء التوليد، حاول مرة أخرى"
                  | en => "Generation failed, try again"
                  end) ]
    else [] in
  (setIsGenerating false r.1, caught).

(** ** Predicates of the statements *)

(** No moment with id [i] is completed. *)
Definition none_completed (i : string) (st : AppState) : Prop :=
  ∀ m, m ∈ moments st → id m = i → status m ≠ completed.

(** ** Hosts and data of the examples *)

(** Riyadh: three hours ahead of UTC all year. *)
Definition Riyadh : TimeZone := fixedZone (3 * 3600000).

(** Bogota: five hours behind UTC all year. *)
Definition Bogota : TimeZone := fixedZone (- 5 * 3600000).

(** London in 2024: on UTC, and one hour ahead from 2024-03-31 01:00 UTC
    (day 19813) to 2024-10-27 01:00 UTC (day 20023). *)
Definition London2024 : TimeZone :=
  dstZone 0 (19813 * msPerDay + 3600000) (20023 * msPerDay + 3600000).

Definition moment0 (i : string) (d : DateString) (p : Priority) (s : Status)
  : Moment :=
  {| id := i; title := "Exam"; date := d; type := STUDY; priority := p;
     initialEmotion := HAPPY; notes := EmptyString; tasks := []; status := s;
     createdAt := 0; emotionHistory := []; reflection := None |}.

Definition app0 (ms : list Moment) (v : ViewState) (sel : option string)
  : AppState :=
  {| moments := ms; view := v; selectedMomentId := sel; lang := ar;
     notificationPermission := granted |}.

(** ** [askAI] *)

(** [v?.k]: [undefined] when [v] is [null] or [undefined], the property
    otherwise. *)
Definition optChain (v : JSValue) (k : string) : JSValue :=
  match v with
  | None | Some JNull => None
  | Some d => default None (getProp d k)
  end.

(** [v?.[0]]: the first element of an array, the property ["0"] of an
    object, the first character of a string (which character is never
    looked at: the next step of the chain reads a named property). *)
Definition optIndex0 (v : JSValue) : JSValue :=
  match v with
  | Some (JArray items) => head items
  | Some (JObject fields) => assoc "0" fields
  | Some (JString (String c _)) => Some (JString (String c EmptyString))
  | _ => None
  end.

(** [x ?? d]. *)
Definition nullish (x : JSValue) (d : JSON) : JSON :=
  match x with
  | None | Some JNull => d
  | Some v => v
  end.

(** What the promise of [askAI] resolves to; [None] when it rejects,
    which it does when [fetch] or [res.json()] do. *)
Definition askAI (resp : Response) : option JSON :=
  match resp with
  | FetchRejected | BodyNotJSON => None
  | Parsed data =>
      let candidates := optChain (Some data) "candidates" in
      let content := optChain (optIndex0 candidates) "content" in
      let parts := optChain content "parts" in
      let text := optChain (optIndex0 parts) "text" in
      Some (nullish text (JString "No reply"))
  end.

(** ** More of [DashboardView] and [StatsView] *)

(** The cards of the dashboard: [activeMoments.slice(0, 3)]. *)
Definition dashboardCards (ms : list Moment) : list Moment :=
  take 3 (activeMoments ms).

(** An entry of the category chart; its [name] is the label of a moment
    type in the current language and is represented by the type. *)
Record Slice := {
  name : MomentType;
  value : nat;
  color : string
}.

Definition data (ms : list Moment) : list Slice :=
  filter (λ d, (0 < value d)%nat)
    [ {| name := STUDY;
         value := length (filter (λ m, type m = STUDY) (completedMoments ms));
         color := "#8b5cf6" |};
      {| name := WORK;
         value := length (filter (λ m, type m = WORK) (completedMoments ms));
         color := "#64748b" |};
      {| name := PERSONAL;
         value := length (filter (λ m, type m = PERSONAL) (completedMoments ms));
         color := "#ec4899" |};
      {| name := TRAVEL;
         value := length (filter (λ m, type m = TRAVEL) (completedMoments ms));
         color := "#0ea5e9" |};
      {| name := GOAL;
         value := length (filter (λ m, type m = GOAL) (completedMoments ms));
         color := "#10b981" |} ].

(** ** Runs of the application *)

(** What one event comes with: the clock reading of the render, the ids
    [generateId] returns and the clock readings of the handler. *)
Record Input := {
  input_now : Z;
  input_generateId : nat → string;
  input_clock : nat → ISOString;
  input_event : Event
}.

Definition stepInput (tz : TimeZone) (st : AppState) (i : Input) : AppState :=
  step tz (input_now i) (input_generateId i) (input_clock i) st (input_event i).

Definition run (tz : TimeZone) (inputs : list Input) (st : AppState) : AppState :=
  foldl (stepInput tz) st inputs.

(** ** The days remaining as the specification words them *)

(** The whole calendar days from the current local day to the target
    date, [ceil((midnight(date) - midnight(now)) / 1 day)] with both
    midnights taken on the same clock.  This is what the specification
    calls the days remaining; [getDaysRemaining] above is what the code
    computes. *)
Definition calendarDaysRemaining (tz : TimeZone) (now : Z) (targetDate : DateString)
  : option Z :=
  match targetDate with
  | EmptyDate => None
  | IsoDate d => Some (d - toDateString tz now)
  end.

(** The stress score of the specification, [2 × urgentCount +
    activeCount], with the calendar days for the days remaining. *)
Definition calendarStressScore (tz : TimeZone) (now : Z) (ms : list Moment) : nat :=
  (2 * length (filter (λ m, status m = active ∧ priority m = HIGH
                            ∧ num_le (calendarDaysRemaining tz now (date m)) 7)
                 ms)
   + length (filter (λ m, status m = active) ms))%nat.

(** The last day a [Date] can hold, counted from the epoch. *)
Definition maxDay : Z := 100000000.

(** ** More predicates of the statements *)

(** Order of two date cells that both hold a date. *)
Definition date_le (a b : DateString) : Prop :=
  match a, b with
  | IsoDate x, IsoDate y => x ≤ y
  | _, _ => False
  end.

(** A moment as the handlers make them: title and date filled in, and
    either active without a reflection or completed with one rated 1
    to 5. *)
Definition wellFormed (m : Moment) : Prop :=
  title m ≠ EmptyString ∧ date m ≠ EmptyDate
  ∧ ((status m = active ∧ reflection m = None)
     ∨ (status m = completed
        ∧ ∃ r, reflection m = Some r ∧ 1 ≤ rating r ≤ 5)).

(** The ids of the collection are distinct, its moments are well formed,
    and the detail, edit and memory views are open on an active moment. *)
Definition consistent (st : AppState) : Prop :=
  NoDup (id <$> moments st)
  ∧ (∀ m, m ∈ moments st → wellFormed m)
  ∧ (view st = details ∨ view st = edit ∨ view st = memory →
     ∀ m, selectedMoment st = Some m → status m = active).

(** The detail, edit and memory views begin with
    [moments.find(m => m.id === selectedMomentId)] and return [null]
    when it finds nothing: the view on screen, if it is one of the
    three, has found its moment. *)
Definition selectedFound (st : AppState) : Prop :=
  view st = details ∨ view st = edit ∨ view st = memory →
  is_Some (selectedMoment st).

(** What is assumed of an input: the id a save draws for the new moment
    is not yet in use, and the rating of a reflection is what the stars
    can set it to. *)
Definition admissible (st : AppState) (i : Input) : Prop :=
  match input_event i with
  | ClickSave _ _ _ _ _ _ _ => input_generateId i 0%nat ∉ id <$> moments st
  | ClickSaveReflection given _ _ => rating_cell given
  | _ => True
  end.

Fixpoint admissibleRun (tz : TimeZone) (inputs : list Input) (st : AppState)
  : Prop :=
  match inputs with
  | [] => True
  | i :: inputs' =>
      admissible st i ∧ admissibleRun tz inputs' (stepInput tz st i)
  end.

(** * Properties *)

(** ** Sorting *)

Section sort_facts.
Context {A : Type} (comparefn : A → A → option Z).

Lemma sort_insert_Permutation x l : sort_insert comparefn x l ≡ₚ x :: l.
Proof.
  induction l as [|y l IH]; simpl; [done|].
  case_decide; [done|]. rewrite IH. apply Permutation_swap.
Qed.

Lemma sort_Permutation l : sort comparefn l ≡ₚ l.
Proof.
  induction l as [|x l IH]; simpl; [done|].
  by rewrite sort_insert_Permutation, IH.
Qed.

Lemma length_sort l : length (sort comparefn l) = length l.
Proof. by rewrite sort_Permutation. Qed.

Lemma elem_of_sort x l : x ∈ sort comparefn l ↔ x ∈ l.
Proof. by rewrite sort_Permutation. Qed.

Lemma length_filter_sort (P : A → Prop) `{∀ x, Decision (P x)} l :
  length (filter P (sort comparefn l)) = length (filter P l).
Proof. by rewrite sort_Permutation. Qed.

(** When the comparator orders by a key, the result is in key order. *)
Context (key : A → Z).
Hypothesis comparefn_key : ∀ x y, comparefn x y = Some (key x - key y).

Lemma sort_insert_sorted x l :
  StronglySorted (λ a b, key a ≤ key b) l →
  StronglySorted (λ a b, key a ≤ key b) (sort_insert comparefn x l).
Proof.
  induction 1 as [|y l Hl IH Hy]; simpl.
  - repeat constructor.
  - unfold SortCompare. rewrite comparefn_key. simpl. case_decide.
    + constructor; [by constructor|].
      constructor; [lia|].
      eapply Forall_impl; [exact Hy|]. simpl. intros; lia.
    + constructor; [done|].
      rewrite sort_insert_Permutation. constructor; [lia|done].
Qed.

Lemma sort_sorted l : StronglySorted (λ a b, key a ≤ key b) (sort comparefn l).
Proof.
  induction l as [|x l IH]; simpl; [constructor|].
  by apply sort_insert_sorted.
Qed.
End sort_facts.

(** ** Days remaining *)

Lemma ceilDiv_add_multiple k r b : 0 < b → ceilDiv (k * b + r) b = k + ceilDiv r b.
Proof.
  intros Hb. unfold ceilDiv.
  replace (- (k * b + r)) with (- r + (- k) * b) by lia.
  rewrite Z.div_add by lia. lia.
Qed.

Lemma setHours0_fixedZone off now :
  setHours0 (fixedZone off) now = toDateString (fixedZone off) now * msPerDay - off.
Proof. reflexivity. Qed.

(** Without daylight saving, the count is the difference of the calendar
    days plus a term that depends on the zone only. *)
Lemma getDaysRemaining_fixedZone off now d :
  getDaysRemaining (fixedZone off) now (IsoDate d)
  = Some (d - toDateString (fixedZone off) now + ceilDiv off msPerDay).
Proof.
  unfold getDaysRemaining. simpl. rewrite setHours0_fixedZone. f_equal.
  change (1000 * 3600 * 24) with msPerDay.
  replace (d * msPerDay - (toDateString (fixedZone off) now * msPerDay - off))
    with ((d - toDateString (fixedZone off) now) * msPerDay + off) by lia.
  by apply ceilDiv_add_multiple.
Qed.

(** On UTC and west of it the count is the number of calendar days from
    the current local day to the target date. *)
Lemma getDaysRemaining_west off now d :
  - msPerDay < off ≤ 0 →
  getDaysRemaining (fixedZone off) now (IsoDate d)
  = Some (d - toDateString (fixedZone off) now).
Proof.
  intros Hoff. rewrite getDaysRemaining_fixedZone. f_equal.
  assert (ceilDiv off msPerDay = 0) as ->; [|lia].
  unfold ceilDiv. cut ((- off) / msPerDay = 0); [lia|].
  apply Z.div_small. lia.
Qed.

(** East of UTC it is one more. *)
Lemma getDaysRemaining_east off now d :
  0 < off ≤ msPerDay →
  getDaysRemaining (fixedZone off) now (IsoDate d)
  = Some (d - toDateString (fixedZone off) now + 1).
Proof.
  intros Hoff. rewrite getDaysRemaining_fixedZone. do 2 f_equal.
  unfold ceilDiv. cut ((- off) / msPerDay = -1); [lia|].
  symmetry. apply (Z.div_unique_pos _ _ _ (msPerDay - off)); unfold msPerDay in *; lia.
Qed.

(** C1 (code defect).  On a host in Riyadh (UTC+3) the count is one more
    than the number of calendar days between the current day and the
    target date, whatever the clock and the date: at 09:00 on 2024-03-10
    (day 19792) a moment dated that very day has one day remaining, and
    one dated the day before, which has passed, has zero days remaining
    instead of a negative count. *)
Theorem getDaysRemaining_Riyadh :
  (∀ now d, getDaysRemaining Riyadh now (IsoDate d)
            = Some (d - toDateString Riyadh now + 1))
  ∧ toDateString Riyadh (19792 * msPerDay + 6 * 3600000) = 19792
  ∧ getDaysRemaining Riyadh (19792 * msPerDay + 6 * 3600000) (IsoDate 19792) = Some 1
  ∧ getDaysRemaining Riyadh (19792 * msPerDay + 6 * 3600000) (IsoDate 19791) = Some 0.
Proof.
  split; [|by vm_compute].
  intros now d. apply getDaysRemaining_east. unfold msPerDay. lia.
Qed.

(** ** Stress score and vibe *)

Lemma length_activeMoments ms :
  length (activeMoments ms) = length (filter (λ m, status m = active) ms).
Proof. apply length_sort. Qed.

Lemma length_urgentMoments tz now ms :
  length (urgentMoments tz now ms)
  = length (filter (λ m, status m = active ∧ priority m = HIGH
                         ∧ num_le (getDaysRemaining tz now (date m)) 7) ms).
Proof.
  unfold urgentMoments, activeMoments.
  rewrite length_filter_sort, list_filter_filter.
  f_equal. apply list_filter_iff. tauto.
Qed.

Lemma stressScore_count tz now ms :
  stressScore tz now ms
  = (2 * length (filter (λ m, status m = active ∧ priority m = HIGH
                              ∧ num_le (getDaysRemaining tz now (date m)) 7) ms)
     + length (filter (λ m, status m = active) ms))%nat.
Proof.
  unfold stressScore. rewrite length_urgentMoments, length_activeMoments. lia.
Qed.

Lemma vibe_thresholds tz now ms :
  ((stressScore tz now ms ≤ 5)%nat → vibe tz now ms = chill)
  ∧ ((6 ≤ stressScore tz now ms ≤ 10)%nat → vibe tz now ms = balanced)
  ∧ ((10 < stressScore tz now ms)%nat → vibe tz now ms = hectic).
Proof. unfold vibe. repeat split; intros; repeat case_decide; done || lia. Qed.

(** On UTC and west of it, without daylight saving, the code's count is
    the calendar's. *)
Lemma daysRemaining_west_calendar off now s :
  - msPerDay < off ≤ 0 →
  getDaysRemaining (fixedZone off) now s
  = calendarDaysRemaining (fixedZone off) now s.
Proof.
  intros Hoff. destruct s as [|d]; [done|]. by apply getDaysRemaining_west.
Qed.

(** East of it, it is the calendar's plus one. *)
Lemma daysRemaining_east_calendar off now s :
  0 < off ≤ msPerDay →
  getDaysRemaining (fixedZone off) now s
  = (λ days, days + 1) <$> calendarDaysRemaining (fixedZone off) now s.
Proof.
  intros Hoff. destruct s as [|d]; [done|]. by apply getDaysRemaining_east.
Qed.

(** C2 (code defect).  On a host in Riyadh (UTC+3) at 09:00 on
    2024-03-10 (day 19792), one active high-priority moment dated
    2024-03-17 (day 19799) is seven calendar days away, so the stress
    score should be 2 × 1 + 1 = 3; the code counts eight days remaining,
    does not take the moment for urgent and gives the score 1. *)
Theorem stressScore_Riyadh :
  let now := 19792 * msPerDay + 6 * 3600000 in
  let ms := [moment0 "a" (IsoDate 19799) HIGH active] in
  toDateString Riyadh now = 19792
  ∧ calendarDaysRemaining Riyadh now (IsoDate 19799) = Some 7
  ∧ getDaysRemaining Riyadh now (IsoDate 19799) = Some 8
  ∧ urgentMoments Riyadh now ms = []
  ∧ stressScore Riyadh now ms = 1%nat
  ∧ calendarStressScore Riyadh now ms = 3%nat.
Proof. by vm_compute. Qed.

(** X26.  On a host without daylight saving that is on UTC or up to a
    day behind it, the stress score is twice the number of active
    high-priority moments at most seven calendar days away plus the
    number of active moments; and on every host the vibe is chill for a
    score up to 5, balanced from 6 to 10 and hectic above 10. *)
Theorem stressScore_calendar off now ms :
  - msPerDay < off ≤ 0 →
  stressScore (fixedZone off) now ms = calendarStressScore (fixedZone off) now ms
  ∧ (∀ tz,
       ((stressScore tz now ms ≤ 5)%nat → vibe tz now ms = chill)
       ∧ ((6 ≤ stressScore tz now ms ≤ 10)%nat → vibe tz now ms = balanced)
       ∧ ((10 < stressScore tz now ms)%nat → vibe tz now ms = hectic)).
Proof.
  intros Hoff. split; [|intros tz; apply vibe_thresholds].
  rewrite stressScore_count. unfold calendarStressScore. do 3 f_equal.
  apply list_filter_iff. intros m.
  by rewrite (daysRemaining_west_calendar off now (date m) Hoff).
Qed.

Lemma stressScore_calendar_witness :
  let now := 19792 * msPerDay + 50000000 in
  let ms := [ moment0 "a" (IsoDate 19795) HIGH active;
              moment0 "b" (IsoDate 19799) HIGH active;
              moment0 "c" (IsoDate 19800) HIGH active;
              moment0 "d" (IsoDate 19793) LOW active;
              moment0 "e" (IsoDate 19793) HIGH completed ] in
  - msPerDay < - 5 * 3600000 ≤ 0
  ∧ calendarStressScore Bogota now ms = 8%nat
  ∧ stressScore Bogota now ms = calendarStressScore Bogota now ms.
Proof.
  intros now ms.
  assert (- msPerDay < - 5 * 3600000 ≤ 0) as Hoff by (unfold msPerDay; lia).
  split; [exact Hoff|]. split; [by vm_compute|].
  exact (proj1 (stressScore_calendar (- 5 * 3600000) now ms Hoff)).
Defined.

(** Two urgent and two other active moments among six: score 8, balanced. *)
Example example_balanced_week :
  let ms := [ moment0 "a" (IsoDate 19795) HIGH active;
              moment0 "b" (IsoDate 19799) HIGH active;
              moment0 "c" (IsoDate 19800) HIGH active;
              moment0 "d" (IsoDate 19793) LOW active;
              moment0 "e" (IsoDate 19793) HIGH completed;
              moment0 "f" EmptyDate HIGH archived ] in
  stressScore Bogota (19792 * msPerDay + 50000000) ms = 8%nat
  ∧ vibe Bogota (19792 * msPerDay + 50000000) ms = balanced.
Proof. by vm_compute. Qed.

Lemma stressScore_app tz now ms m :
  stressScore tz now (ms ++ [m])
  = (stressScore tz now ms + stressScore tz now [m])%nat.
Proof.
  rewrite !stressScore_count, !filter_app, !length_app. lia.
Qed.

(** C9 (code defect).  On a host in Riyadh (UTC+3) at 09:00 on
    2024-03-10 (day 19792), adding an active high-priority moment dated
    2024-03-17 (day 19799), seven calendar days away, raises the stress
    score from 1 to 2: by one, where a moment due within seven days
    should raise it by at least two.  The code counts eight days
    remaining for it. *)
Theorem addMoment_Riyadh :
  let now := 19792 * msPerDay + 6 * 3600000 in
  let st := app0 [moment0 "b" (IsoDate 19795) LOW active] create None in
  let m := moment0 "a" (IsoDate 19799) HIGH active in
  status m = active ∧ priority m = HIGH
  ∧ calendarDaysRemaining Riyadh now (date m) = Some 7
  ∧ getDaysRemaining Riyadh now (date m) = Some 8
  ∧ stressScore Riyadh now (moments st) = 1%nat
  ∧ stressScore Riyadh now (moments (addMoment m st)) = 2%nat.
Proof. by vm_compute. Qed.

(** X27.  On every host, adding a moment never lowers the stress score
    and adding an active one raises it by at least one.  On a host
    without daylight saving that is on UTC or up to a day behind it,
    adding an active high-priority moment at most seven calendar days
    away raises it by exactly three. *)
Theorem addMoment_raises tz now st m :
  (stressScore tz now (moments st)
   ≤ stressScore tz now (moments (addMoment m st)))%nat
  ∧ (status m = active →
     (stressScore tz now (moments st) + 1
      ≤ stressScore tz now (moments (addMoment m st)))%nat)
  ∧ (∀ off, tz = fixedZone off → - msPerDay < off ≤ 0 →
       status m = active → priority m = HIGH →
       num_le (calendarDaysRemaining tz now (date m)) 7 →
       stressScore tz now (moments (addMoment m st))
       = (stressScore tz now (moments st) + 3)%nat).
Proof.
  simpl. rewrite stressScore_app. split; [lia|]. split.
  - intros Hact. rewrite (stressScore_count tz now [m]).
    rewrite (filter_cons_True (λ m, status m = active)) by done. simpl. lia.
  - intros off -> Hoff Hact Hhigh Hdays.
    rewrite <-(daysRemaining_west_calendar off now (date m) Hoff) in Hdays.
    assert (stressScore (fixedZone off) now [m] = 3%nat) as ->; [|lia].
    rewrite stressScore_count. rewrite !filter_cons_True by done. done.
Qed.

Lemma addMoment_raises_witness :
  let now := 19792 * msPerDay + 50000000 in
  let st := app0 [moment0 "b" (IsoDate 19795) LOW active] create None in
  let m := moment0 "a" (IsoDate 19799) HIGH active in
  - msPerDay < - 5 * 3600000 ≤ 0
  ∧ status m = active ∧ priority m = HIGH
  ∧ calendarDaysRemaining Bogota now (date m) = Some 7
  ∧ stressScore Bogota now (moments (addMoment m st))
    = (stressScore Bogota now (moments st) + 3)%nat.
Proof.
  intros now st m.
  assert (- msPerDay < - 5 * 3600000 ≤ 0) as Hoff by (unfold msPerDay; lia).
  split; [exact Hoff|]. split; [reflexivity|]. split; [reflexivity|].
  split; [by vm_compute|].
  refine (proj2 (proj2 (addMoment_raises Bogota now st m))
            (- 5 * 3600000) eq_refl Hoff eq_refl eq_refl _).
  by vm_compute.
Defined.

(** ** The repository *)

Lemma setMoments_same st : setMoments (moments st) st = st.
Proof. by destruct st. Qed.

(** C10.  Updating with a moment whose id does not occur in the
    collection changes nothing: [updateMoment] replaces, it never
    inserts. *)
Theorem updateMoment_absent updatedMoment st :
  (∀ m, m ∈ moments st → id m ≠ id updatedMoment) →
  updateMoment updatedMoment st = st.
Proof.
  intros Habs. unfold updateMoment.
  cut ((λ m, if decide (id m = id updatedMoment) then updatedMoment else m)
         <$> moments st = moments st).
  { intros ->. apply setMoments_same. }
  rewrite <-(list_fmap_id (moments st)) at 2.
  apply list_fmap_ext. intros k m Hm.
  apply list_elem_of_lookup_2 in Hm.
  case_decide; [by destruct (Habs m Hm)|done].
Qed.

Lemma updateMoment_absent_witness :
  let st := app0 [moment0 "a" (IsoDate 19795) LOW active;
                  moment0 "b" (IsoDate 19799) HIGH completed] details (Some "a") in
  let u := moment0 "c" (IsoDate 19800) HIGH active in
  (∀ m, m ∈ moments st → id m ≠ id u) ∧ updateMoment u st = st.
Proof.
  intros st u.
  assert (∀ m, m ∈ moments st → id m ≠ id u) as Habs.
  { intros m Hm. subst st u. simpl in Hm. set_unfold.
    destruct Hm as [Hm|[Hm|[]]]; by rewrite Hm. }
  split; [exact Habs|]. exact (updateMoment_absent u st Habs).
Defined.

(** C6.  With an empty title or an empty date, saving the create form
    and saving the edit form return the state they were given: the
    collection, and everything else, is as before, and neither handler
    has another effect. *)
Theorem handleSave_handleUpdate_rejected generateId clock title date type
    priority taskTexts emotion notes tasks st :
  title = EmptyString ∨ date = EmptyDate →
  handleSave generateId clock title date type priority taskTexts emotion notes st = st
  ∧ handleUpdate title date type priority notes tasks st = st.
Proof.
  intros Hempty. unfold handleSave, handleUpdate.
  split; [by rewrite decide_True|].
  destruct (selectedMoment st); [by rewrite decide_True|done].
Qed.

Lemma handleSave_handleUpdate_rejected_witness :
  let st := app0 [moment0 "a" (IsoDate 19795) LOW active] edit (Some "a") in
  ("Trip" = EmptyString ∨ EmptyDate = EmptyDate)
  ∧ handleSave (λ _, "x") (λ _, 0) "Trip" EmptyDate TRAVEL LOW ["pack"] HAPPY EmptyString st = st
  ∧ handleUpdate "Trip" EmptyDate TRAVEL LOW EmptyString [] st = st.
Proof.
  intros st. split; [by right|].
  apply handleSave_handleUpdate_rejected. by right.
Defined.

(** ** Postponing *)

Lemma Day_TimeWithinDay t : Day t * msPerDay + TimeWithinDay t = t.
Proof.
  unfold Day, TimeWithinDay.
  pose proof (Z.div_mod t msPerDay) as H. unfold msPerDay in *. lia.
Qed.

Lemma Day_multiple d : Day (d * msPerDay) = d.
Proof. unfold Day. apply Z.div_mul. done. Qed.

(** [setDate(getDate() + n)] moves the time value by [n] days exactly
    when the zone has the same offset before and after. *)
Lemma setDate_getDate_plus_same_offset tz n t :
  LocalTZA_local tz (LocalTime tz t + n * msPerDay) = LocalTZA_utc tz t →
  setDate_getDate_plus tz n t = t + n * msPerDay.
Proof.
  intros Hoff. unfold setDate_getDate_plus, UTC.
  replace ((Day (LocalTime tz t) + n) * msPerDay + TimeWithinDay (LocalTime tz t))
    with (LocalTime tz t + n * msPerDay)
    by (pose proof (Day_TimeWithinDay (LocalTime tz t)); lia).
  rewrite Hoff. unfold LocalTime. lia.
Qed.

(** Without daylight saving the postponed date is seven days later. *)
Lemma postponedDate_fixedZone off d :
  postponedDate (fixedZone off) (IsoDate d) = Some (IsoDate (d + 7)).
Proof.
  unfold postponedDate. simpl.
  rewrite setDate_getDate_plus_same_offset by done.
  unfold toISODate. do 2 f_equal.
  replace (d * msPerDay + 7 * msPerDay) with ((d + 7) * msPerDay) by lia.
  apply Day_multiple.
Qed.

(** Postponing writes the selected moment back with a new date and
    nothing else changed, in place of every moment with its id, and
    leaves the other moments alone. *)
Lemma postpone_frame tz moment st d m' :
  postponedDate tz (date moment) = Some d →
  m' ∈ moments (postpone tz moment st) →
  (id m' = id moment ∧ title m' = title moment ∧ date m' = d
   ∧ type m' = type moment ∧ priority m' = priority moment
   ∧ initialEmotion m' = initialEmotion moment ∧ notes m' = notes moment
   ∧ tasks m' = tasks moment ∧ status m' = status moment
   ∧ createdAt m' = createdAt moment
   ∧ emotionHistory m' = emotionHistory moment
   ∧ reflection m' = reflection moment)
  ∨ (id m' ≠ id moment ∧ m' ∈ moments st).
Proof.
  intros Hd. unfold postpone. rewrite Hd. simpl.
  rewrite list_elem_of_fmap. intros (m & -> & Hm).
  case_decide; [left; by repeat split|by right].
Qed.

(** C5 (code defect).  On a host in London a moment dated 2024-03-28
    (day 19810) that is active and past due on 2024-03-30 is postponed
    to 2024-04-03 (day 19816), six days later: the clocks go forward
    in between. *)
Theorem postpone_London_spring :
  let moment := moment0 "a" (IsoDate 19810) LOW active in
  let st := app0 [moment] details (Some "a") in
  let now := 19812 * msPerDay + 12 * 3600000 in
  selectedMoment st = Some moment
  ∧ getDaysRemaining London2024 now (date moment) = Some (-2)
  ∧ isPast London2024 now moment = true
  ∧ postpone London2024 moment st
    = app0 [moment0 "a" (IsoDate 19816) LOW active] details (Some "a")
  ∧ step London2024 now (λ _, "x") (λ _, now) st ClickPostpone
    = postpone London2024 moment st.
Proof. by vm_compute. Qed.

(** ** Completing a moment *)

Lemma selectedMoment_Some st moment :
  selectedMoment st = Some moment →
  moment ∈ moments st ∧ selectedMomentId st = Some (id moment).
Proof.
  unfold selectedMoment. destruct (selectedMomentId st) as [i|]; [|done].
  simpl. destruct (list_find _ _) as [[k m]|] eqn:Hfind; [|done].
  simpl. intros [= ->]. apply list_find_Some in Hfind as (Hk & Hid & _).
  split; [by eapply list_elem_of_lookup_2|by rewrite Hid].
Qed.

Lemma elem_of_updateMoment u st m' :
  m' ∈ moments (updateMoment u st) ↔
  (m' = u ∧ ∃ m, m ∈ moments st ∧ id m = id u)
  ∨ (m' ∈ moments st ∧ id m' ≠ id u).
Proof.
  simpl. rewrite list_elem_of_fmap. split.
  - intros (m & -> & Hm). case_decide; [left|right]; eauto.
  - intros [(-> & m & Hm & Hid)|(Hm & Hid)].
    + exists m. by rewrite decide_True.
    + exists m'. by rewrite decide_False.
Qed.

Lemma none_completed_updateMoment i u moment st :
  moment ∈ moments st → id u = id moment → status u = status moment →
  none_completed i st → none_completed i (updateMoment u st).
Proof.
  intros Hin Hid Hst Hnone m' Hm' Hi.
  apply elem_of_updateMoment in Hm' as [(-> & _)|(Hm' & _)]; [|by apply Hnone].
  rewrite Hst. apply Hnone; [done|congruence].
Qed.

Lemma none_completed_moments i st st' :
  moments st' = moments st → none_completed i st → none_completed i st'.
Proof. unfold none_completed. by intros ->. Qed.

Lemma none_completed_handleSave i generateId clock title date type priority
    tasks emotion notes st :
  none_completed i st →
  none_completed i
    (handleSave generateId clock title date type priority tasks emotion notes st).
Proof.
  intros Hnone. unfold handleSave. case_decide; [done|].
  intros m. simpl. rewrite elem_of_app, list_elem_of_singleton.
  intros [Hm| ->]; [by apply Hnone|done].
Qed.

Lemma none_completed_handleUpdate i title date type priority notes tasks st :
  none_completed i st →
  none_completed i (handleUpdate title date type priority notes tasks st).
Proof.
  intros Hnone. unfold handleUpdate.
  destruct (selectedMoment st) as [moment|] eqn:Hsel; [|done].
  case_decide; [done|]. apply selectedMoment_Some in Hsel as [Hin _].
  eapply none_completed_moments; [reflexivity|].
  by eapply none_completed_updateMoment.
Qed.

Lemma none_completed_deleteMoment i j st :
  none_completed i st → none_completed i (deleteMoment j st).
Proof.
  intros Hnone. unfold deleteMoment.
  assert (none_completed i (setMoments (filter (λ m, id m ≠ j) (moments st)) st)).
  { intros m. simpl. rewrite list_elem_of_filter. intros [_ Hm]. by apply Hnone. }
  by case_decide.
Qed.

Lemma none_completed_postpone i tz moment st :
  moment ∈ moments st →
  none_completed i st → none_completed i (postpone tz moment st).
Proof.
  intros Hin Hnone. unfold postpone.
  destruct (postponedDate tz (date moment)); [|done].
  by eapply none_completed_updateMoment.
Qed.

Lemma rating_cell_range r : rating_cell r → r = 0 ∨ 1 ≤ r ≤ 5.
Proof.
  destruct 1 as [|star r Hstar _]; [by left|right].
  unfold stars in Hstar. set_unfold. lia.
Qed.

(** Every event but a reflection saved with a rating leaves a moment
    that was not completed not completed. *)
Lemma none_completed_step i tz now generateId clock st ev :
  (∀ rating lessons repeatable,
     ev = ClickSaveReflection rating lessons repeatable →
     view st ≠ memory ∨ rating = 0) →
  none_completed i st →
  none_completed i (step tz now generateId clock st ev).
Proof.
  intros Hev Hnone. unfold step.
  assert (∀ v, none_completed i (setView v st)) as Hview by done.
  assert (match selectedMoment st with
          | None => True
          | Some moment =>
              none_completed i (postpone tz moment st)
              ∧ none_completed i (deleteMoment (id moment) st)
              ∧ (∀ taskId, none_completed i (toggleTask taskId moment st))
              ∧ (∀ emo, none_completed i
                          (addEmotionLog generateId clock emo moment st))
          end) as Hsel.
  { destruct (selectedMoment st) as [moment|] eqn:Hsel; [|done].
    apply selectedMoment_Some in Hsel as [Hin _].
    split; [by apply none_completed_postpone|].
    split; [by apply none_completed_deleteMoment|].
    split; intros ?; by eapply none_completed_updateMoment. }
  destruct ev, (view st) eqn:Hv; simpl; try done;
    try (by apply none_completed_handleSave);
    try (by case_decide);
    try (by destruct (navTarget _));
    try (by destruct (selectedMoment st));
    try (destruct (selectedMoment st); [|done];
         destruct Hsel as (? & ? & ? & ?); by destruct (isPast _ _ _));
    try (destruct (selectedMoment st) eqn:?; [|done];
         by apply none_completed_handleUpdate).
  destruct (selectedMoment st) eqn:?; [|done].
  destruct (Hev _ _ _ eq_refl) as [?| ->]; [done|].
  unfold handleSaveReflection. by destruct (selectedMoment st).
Qed.

Lemma saved_with_rating_or_not ev st :
  (∃ given lessons repeatable,
     ev = ClickSaveReflection given lessons repeatable
     ∧ view st = memory ∧ given ≠ 0)
  ∨ (∀ given lessons repeatable,
       ev = ClickSaveReflection given lessons repeatable →
       view st ≠ memory ∨ given = 0).
Proof.
  destruct ev as [| | | | | |given lessons repeatable| | | | | |];
    try (right; intros; discriminate).
  destruct (decide (view st = memory)); [|right; intros; by left].
  destruct (decide (given = 0)) as [->|]; [right; intros ??? [= <-]; by right|].
  left. by exists given, lessons, repeatable.
Qed.

(** C3.  Saving a reflection with rating 0 is refused: the state, and
    with it every status and reflection, stays as it was.  With another
    rating, the selected moment is written back completed and carrying
    the reflection.  And no event makes a completed moment out of one
    that was not, other than a reflection saved from the memory view
    with a rating of at least 1, which the moment then carries. *)
Theorem completed_only_by_rated_reflection tz now generateId clock st :
  (∀ lessons repeatable,
     handleSaveReflection clock 0 lessons repeatable st = st)
  ∧ (∀ moment given lessons repeatable,
       selectedMoment st = Some moment → given ≠ 0 →
       let st' := handleSaveReflection clock given lessons repeatable st in
       (∃ m', m' ∈ moments st' ∧ id m' = id moment)
       ∧ ∀ m', m' ∈ moments st' → id m' = id moment →
           status m' = completed
           ∧ reflection m'
             = Some {| rating := given; lessons := lessons;
                       repeatable := default false repeatable;
                       completedDate := clock 0%nat |})
  ∧ (∀ ev i m',
       none_completed i st →
       (∀ given lessons repeatable,
          ev = ClickSaveReflection given lessons repeatable → rating_cell given) →
       m' ∈ moments (step tz now generateId clock st ev) →
       id m' = i → status m' = completed →
       ∃ given lessons repeatable r,
         ev = ClickSaveReflection given lessons repeatable
         ∧ view st = memory ∧ 1 ≤ given
         ∧ reflection m' = Some r ∧ rating r = given).
Proof.
  split; [|split].
  - intros lessons repeatable. unfold handleSaveReflection.
    by destruct (selectedMoment st).
  - intros moment given lessons repeatable Hsel Hgiven st'. subst st'.
    unfold handleSaveReflection. rewrite Hsel, decide_False by done.
    apply selectedMoment_Some in Hsel as [Hin _].
    split.
    + eexists. split.
      * apply elem_of_updateMoment. left. split; [reflexivity|]. by exists moment.
      * reflexivity.
    + intros m' Hm' Hid. apply elem_of_updateMoment in Hm' as [[-> _]|[_ Hne]]; done.
  - intros ev i m' Hnone Hcell Hm' Hid Hdone.
    destruct (saved_with_rating_or_not ev st)
      as [(given & lessons & repeatable & -> & Hv & Hgiven)|Hother].
    + exists given, lessons, repeatable.
      unfold step in Hm'. rewrite Hv in Hm'. unfold handleSaveReflection in Hm'.
      destruct (selectedMoment st) as [moment|]; [|by destruct (Hnone m')].
      simpl in Hm'.
      rewrite decide_False in Hm' by done.
      apply elem_of_updateMoment in Hm' as [[-> _]|[Hm' _]];
        [|by destruct (Hnone m')].
      eexists. split; [done|]. split; [done|]. split; [|by split].
      destruct (rating_cell_range given); [by eapply Hcell|done|lia].
    + by destruct (none_completed_step i tz now generateId clock st ev Hother
                     Hnone m').
Qed.

Lemma completed_only_by_rated_reflection_witness :
  let st := app0 [moment0 "a" (IsoDate 19790) LOW active] memory (Some "a") in
  let clock := λ _ : nat, 19792 * msPerDay in
  let ev := ClickSaveReflection 4 "fine" (Some true) in
  let m' :=
    {| id := "a"; title := "Exam"; date := IsoDate 19790; type := STUDY;
       priority := LOW; initialEmotion := HAPPY; notes := EmptyString; tasks := [];
       status := completed; createdAt := 0; emotionHistory := [];
       reflection := Some {| rating := 4; lessons := "fine"; repeatable := true;
                             completedDate := 19792 * msPerDay |} |} in
  none_completed "a" st
  ∧ rating_cell 4
  ∧ m' ∈ moments (step Bogota (19792 * msPerDay) (λ _, "x") clock st ev)
  ∧ ∃ given lessons repeatable r,
      ev = ClickSaveReflection given lessons repeatable
      ∧ view st = memory ∧ 1 ≤ given
      ∧ reflection m' = Some r ∧ rating r = given.
Proof.
  intros st clock ev m'.
  assert (none_completed "a" st) as Hnone.
  { intros m Hm _. subst st. simpl in Hm. set_unfold.
    destruct Hm as [Hm|[]]. by rewrite Hm. }
  assert (rating_cell 4) as Hcell.
  { apply (rating_setRating 4 0); [|constructor]. unfold stars. set_solver. }
  assert (m' ∈ moments (step Bogota (19792 * msPerDay) (λ _, "x") clock st ev))
    as Hm'.
  { vm_compute. left. }
  split; [exact Hnone|]. split; [exact Hcell|]. split; [exact Hm'|].
  refine (proj2 (proj2 (completed_only_by_rated_reflection
            Bogota (19792 * msPerDay) (λ _, "x") clock st))
            ev "a" m' Hnone _ Hm' eq_refl eq_refl).
  intros given lessons repeatable [= <- _ _]. exact Hcell.
Defined.

(** ** The emotion timeline *)

Lemma allLogs_concat ms :
  allLogs ms
  = concat ((λ m, (λ log, {| point_date := EmotionLog_date log;
                             score := emotionScore (emotion log) |})
                    <$> emotionHistory m) <$> ms).
Proof.
  unfold allLogs. induction ms as [|m ms IH]; [done|].
  rewrite bind_cons, fmap_cons, concat_cons, IH. f_equal.
Qed.

(** C8.  Happy and excited score 5, worried and stressed 1, every other
    emotion 3.  The timeline holds exactly the (time, score) pairs of all
    logs of all moments, and is in ascending order of time whatever the
    order of the logs. *)
Theorem emotionData_sorted ms :
  emotionScore HAPPY = 5 ∧ emotionScore EXCITED = 5
  ∧ emotionScore WORRIED = 1 ∧ emotionScore STRESSED = 1
  ∧ (∀ tag, emotionScore (OtherEmotion tag) = 3)
  ∧ emotionData ms
    ≡ₚ concat ((λ m, (λ log, {| point_date := EmotionLog_date log;
                                score := emotionScore (emotion log) |})
                       <$> emotionHistory m) <$> ms)
  ∧ StronglySorted (λ a b, point_date a ≤ point_date b) (emotionData ms).
Proof.
  repeat split; try done.
  - unfold emotionData. by rewrite sort_Permutation, allLogs_concat.
  - unfold emotionData. by apply sort_sorted.
Qed.

(** Two moments whose logs were appended out of order. *)
Example emotionData_out_of_order :
  let log i t e := {| EmotionLog_id := i; EmotionLog_date := t; emotion := e;
                      note := None |} in
  let m i logs :=
    {| id := i; title := "Exam"; date := IsoDate 19800; type := STUDY;
       priority := LOW; initialEmotion := HAPPY; notes := EmptyString; tasks := [];
       status := active; createdAt := 0; emotionHistory := logs;
       reflection := None |} in
  emotionData [ m "a" [log "l1" 500 HAPPY; log "l2" 200 STRESSED];
                m "b" [log "l3" 300 (OtherEmotion "calm"); log "l4" 100 EXCITED] ]
  = [ {| point_date := 100; score := 5 |}; {| point_date := 200; score := 1 |};
      {| point_date := 300; score := 3 |}; {| point_date := 500; score := 5 |} ].
Proof. by vm_compute. Qed.

(** ** The magic plan *)

(** When the [try] block throws, it has changed no cell. *)
Lemma magicPlanTry_throws resp c :
  (magicPlanTry resp c).2 = true → (magicPlanTry resp c).1 = c.
Proof. destruct resp as [| |[]]; done. Qed.

(** A rejected request, a body that is not JSON and the body [null] are
    caught: one alert, and the cells of the form are as they were, apart
    from [isGenerating]. *)
Lemma handleMagicPlan_caught lang resp c :
  resp = FetchRejected ∨ resp = BodyNotJSON ∨ resp = Parsed JNull →
  ∃ msg,
    handleMagicPlan lang resp c
    = (setIsGenerating false c, [console_error "AI Generation failed"; alert msg]).
Proof. intros [->|[->| ->]]; by eexists. Qed.

(** A body that parses to anything but [null] is applied as it stands,
    without an alert. *)
Lemma handleMagicPlan_applied lang data c :
  data ≠ JNull →
  handleMagicPlan lang (Parsed data) c
  = ({| title_cell := default None (getProp data "title");
        type_cell := default None (getProp data "type");
        priority_cell := default None (getProp data "priority");
        notes_cell := default None (getProp data "notes");
        tasks_cell := default None (getProp data "tasks");
        showMagicInput := false; magicInput := EmptyString; isGenerating := false |},
     []).
Proof. by destruct data. Qed.

(** C7 (code defect).  A response that is well-formed JSON but not a
    plan is not treated as an error.  From the body [{"title": "Trip"}]
    the title is applied and the four other cells are set to
    [undefined]; from an error report of the service,
    [{"error": "quota"}], all five cells are set to [undefined].  No
    alert is raised in either case. *)
Theorem handleMagicPlan_malformed lang c :
  handleMagicPlan lang (Parsed (JObject [("title", JString "Trip")])) c
  = ({| title_cell := Some (JString "Trip"); type_cell := None;
        priority_cell := None; notes_cell := None; tasks_cell := None;
        showMagicInput := false; magicInput := EmptyString; isGenerating := false |},
     [])
  ∧ handleMagicPlan lang (Parsed (JObject [("error", JString "quota")])) c
    = ({| title_cell := None; type_cell := None;
          priority_cell := None; notes_cell := None; tasks_cell := None;
          showMagicInput := false; magicInput := EmptyString; isGenerating := false |},
       []).
Proof. done. Qed.

(** ** Notifications *)

Section notifications.
Context (tz : TimeZone).

Lemma notYetNotified_insert (ls : Storage) (k k' : string * Z) :
  notYetNotified (<[k := "true"]> ls) k'
  = if decide (k = k') then false else notYetNotified ls k'.
Proof.
  unfold notYetNotified. case_decide as Hk.
  - subst k'. by rewrite lookup_insert_eq.
  - by rewrite lookup_insert_ne.
Qed.

(** What one pass over the upcoming moments does: it notifies for
    moments of the list whose key was fresh, for no key twice, and
    leaves every key it met marked; marks are never removed. *)
Lemma foldl_notifyMoment (now : Z) (l : list Moment) :
  ∀ (out : list Moment) (ls : Storage),
  ∃ fired,
    (foldl (notifyMoment tz now) (out, ls) l).1 = out ++ fired
    ∧ (∀ m, m ∈ fired →
         m ∈ l ∧ notYetNotified ls (notifiedKey tz now m) = true)
    ∧ NoDup (notifiedKey tz now <$> fired)
    ∧ (∀ k, notYetNotified ls k = false →
            notYetNotified (foldl (notifyMoment tz now) (out, ls) l).2 k = false)
    ∧ (∀ m, m ∈ l →
            notYetNotified (foldl (notifyMoment tz now) (out, ls) l).2
              (notifiedKey tz now m) = false).
Proof.
  induction l as [|m l IH]; intros out ls.
  { exists []. simpl. rewrite app_nil_r.
    split; [done|]. split; [by intros m Hm%elem_of_nil|].
    split; [constructor|]. split; [done|by intros m Hm%elem_of_nil]. }
  cbn [foldl].
  destruct (notYetNotified ls (notifiedKey tz now m)) eqn:Hfresh.
  - replace (notifyMoment tz now (out, ls) m)
      with (out ++ [m], <[notifiedKey tz now m := "true"]> ls)
      by (unfold notifyMoment; simpl; by rewrite Hfresh).
    destruct (IH (out ++ [m]) (<[notifiedKey tz now m := "true"]> ls))
      as (fired & Hout & Hfired & Hnodup & Hmono & Hmarked).
    assert (∀ k, notYetNotified ls k = false →
                 notYetNotified (<[notifiedKey tz now m := "true"]> ls) k = false)
      as Hstep.
    { intros k Hk. rewrite notYetNotified_insert. by case_decide. }
    exists (m :: fired). split; [by rewrite Hout, <-app_assoc|].
    split; [|split; [|split]].
    + intros x [->|Hx]%elem_of_cons; [split; [left|done]|].
      destruct (Hfired x Hx) as [Hxl Hxfresh].
      split; [by right|].
      rewrite notYetNotified_insert in Hxfresh. by case_decide.
    + rewrite fmap_cons. constructor; [|done].
      intros (x & Hkey & Hx)%list_elem_of_fmap.
      destruct (Hfired x Hx) as [_ Hxfresh].
      rewrite notYetNotified_insert, decide_True in Hxfresh; done.
    + intros k Hk. by apply Hmono, Hstep.
    + intros x [->|Hx]%elem_of_cons; [|by apply Hmarked].
      apply Hmono. by rewrite notYetNotified_insert, decide_True.
  - replace (notifyMoment tz now (out, ls) m) with (out, ls)
      by (unfold notifyMoment; simpl; by rewrite Hfresh).
    destruct (IH out ls) as (fired & Hout & Hfired & Hnodup & Hmono & Hmarked).
    exists fired. split; [done|]. split; [|split; [done|split; [done|]]].
    + intros x Hx. destruct (Hfired x Hx). split; [by right|done].
    + intros x [->|Hx]%elem_of_cons; [by apply Hmono|by apply Hmarked].
Qed.

Lemma foldl_notifyMoment_marked (now : Z) (l out : list Moment) (ls : Storage) :
  (∀ m, m ∈ l → notYetNotified ls (notifiedKey tz now m) = false) →
  foldl (notifyMoment tz now) (out, ls) l = (out, ls).
Proof.
  induction l as [|m l IH]; [done|]. intros Hmarked. cbn [foldl].
  replace (notifyMoment tz now (out, ls) m) with (out, ls)
    by (unfold notifyMoment; simpl; by rewrite Hmarked by left).
  apply IH. intros x Hx. apply Hmarked. by right.
Qed.

(** The check looks at the clock for the local day only. *)
Lemma notificationsCheck_same_day now now' :
  toDateString tz now' = toDateString tz now →
  notificationsCheck tz now' = notificationsCheck tz now.
Proof.
  intros Hday.
  assert (getDaysRemaining tz now' = getDaysRemaining tz now) as Hdays.
  { unfold getDaysRemaining, setHours0. unfold toDateString in Hday.
    by rewrite Hday. }
  unfold notificationsCheck, upcoming, notifyMoment, notifiedKey.
  by rewrite Hday, Hdays.
Qed.

Lemma elem_of_upcoming now ms m :
  m ∈ upcoming tz now ms →
  m ∈ ms ∧ status m = active
  ∧ (getDaysRemaining tz now (date m) = Some 0
     ∨ getDaysRemaining tz now (date m) = Some 1).
Proof.
  unfold upcoming, activeMoments.
  rewrite list_elem_of_filter, elem_of_sort, list_elem_of_filter.
  intros (Hdays & Hact & Hm). split; [done|]. split; [done|].
  simpl in Hdays. unfold num_eq in Hdays.
  destruct (getDaysRemaining tz now (date m)) as [days|];
    [|by destruct Hdays].
  destruct Hdays as [->%bool_decide_unpack| ->%bool_decide_unpack]; eauto.
Qed.

(** Over any series of checks on one storage, no (moment id, day) pair
    is notified twice. *)
Lemma notificationsChecks_fresh (inWindow : bool)
    (renders : list (Z * AppState)) : ∀ (ls : Storage),
  NoDup ((λ e, (id e.1, e.2)) <$> (notificationsChecks tz inWindow renders ls).1)
  ∧ (∀ e, e ∈ (notificationsChecks tz inWindow renders ls).1 →
          notYetNotified ls (id e.1, e.2) = true)
  ∧ (∀ k, notYetNotified ls k = false →
          notYetNotified (notificationsChecks tz inWindow renders ls).2 k = false).
Proof.
  induction renders as [|[now st] renders IH]; intros ls.
  { simpl. split; [constructor|]. split; [by intros e He%elem_of_nil|done]. }
  simpl.
  assert (∃ fired,
    (notificationsCheck tz now inWindow st ls).1 = fired
    ∧ (∀ m, m ∈ fired → notYetNotified ls (notifiedKey tz now m) = true)
    ∧ NoDup (notifiedKey tz now <$> fired)
    ∧ (∀ k, notYetNotified ls k = false →
            notYetNotified (notificationsCheck tz now inWindow st ls).2 k = false)
    ∧ (∀ m, m ∈ fired →
            notYetNotified (notificationsCheck tz now inWindow st ls).2
              (notifiedKey tz now m) = false))
    as (fired & Hfst & Hfresh & Hnodup & Hmono & Hmarked).
  { unfold notificationsCheck. destruct (_ && _).
    - destruct (foldl_notifyMoment now (upcoming tz now (moments st)) [] ls)
        as (fired & Hout & Hfired & Hnodup & Hmono & Hmarked).
      exists fired. split; [done|]. split; [intros m Hm; by apply Hfired|].
      split; [done|]. split; [done|].
      intros m Hm. apply Hmarked. by apply Hfired.
    - exists []. split; [done|]. split; [by intros m Hm%elem_of_nil|].
      split; [constructor|]. split; [done|by intros m Hm%elem_of_nil]. }
  destruct (IH (notificationsCheck tz now inWindow st ls).2)
    as (IHnodup & IHfresh & IHmono).
  rewrite Hfst. split; [|split].
  - rewrite fmap_app, <-list_fmap_compose. apply NoDup_app.
    split; [done|]. split; [|done].
    intros k (m & -> & Hm)%list_elem_of_fmap (e & Hk & He)%list_elem_of_fmap.
    specialize (IHfresh e He). simpl in Hk. rewrite <-Hk in IHfresh.
    specialize (Hmarked m Hm). unfold notifiedKey in Hmarked. congruence.
  - intros e [(m & -> & Hm)%list_elem_of_fmap|He]%elem_of_app.
    + by apply Hfresh.
    + specialize (IHfresh e He).
      destruct (notYetNotified ls (id e.1, e.2)) eqn:Hls; [done|].
      apply Hmono in Hls. congruence.
  - intros k Hk. by apply IHmono, Hmono.
Qed.
End notifications.

(** What a check notifies for passed the filter of [upcoming], with the
    notification interface there and the permission granted. *)
Lemma elem_of_notificationsCheck (tz : TimeZone) (now : Z)
    (NotificationInWindow : bool) (st : AppState) (ls : Storage) (m : Moment) :
  m ∈ (notificationsCheck tz now NotificationInWindow st ls).1 →
  m ∈ upcoming tz now (moments st)
  ∧ NotificationInWindow = true
  ∧ notificationPermission st = granted.
Proof.
  unfold notificationsCheck.
  destruct (bool_decide (0 < _)%nat); [|by intros ?%elem_of_nil].
  destruct NotificationInWindow; [|by intros ?%elem_of_nil].
  simpl. case_bool_decide as Hperm; [|by intros ?%elem_of_nil].
  destruct (foldl_notifyMoment tz now (upcoming tz now (moments st)) [] ls)
    as (fired & -> & Hfired & _).
  intros Hm. apply Hfired in Hm as [Hm _]. done.
Qed.

(** C4 (code defect).  On a host in Riyadh (UTC+3) at 09:00 on
    2024-03-10 (day 19792), with the permission granted and nothing
    notified yet, of two active moments, one dated the day before, one
    calendar day past, and one dated the day after, one calendar day
    ahead, the check notifies for the first, which is not coming up, and
    not for the second: the code counts 0 and 2 days remaining for
    them. *)
Theorem notificationsCheck_Riyadh :
  let now := 19792 * msPerDay + 6 * 3600000 in
  let st := app0 [ moment0 "y" (IsoDate 19791) LOW active;
                   moment0 "t" (IsoDate 19793) LOW active ]
              dashboard None in
  notificationPermission st = granted
  ∧ toDateString Riyadh now = 19792
  ∧ calendarDaysRemaining Riyadh now (IsoDate 19791) = Some (-1)
  ∧ calendarDaysRemaining Riyadh now (IsoDate 19793) = Some 1
  ∧ getDaysRemaining Riyadh now (IsoDate 19791) = Some 0
  ∧ getDaysRemaining Riyadh now (IsoDate 19793) = Some 2
  ∧ id <$> (notificationsCheck Riyadh now true st ∅).1 = ["y"].
Proof. by vm_compute. Qed.

(** X28.  On every host: a check notifies only for active moments of
    the collection, and only where the notification interface is there
    and the permission is granted; without the permission it shows
    nothing and writes nothing.  Over any series of checks no moment id
    is notified twice on one local day, and a second check of the same
    state on the same local day shows nothing and leaves the storage as
    it is. *)
Theorem notificationsCheck_dedup (tz : TimeZone)
    (NotificationInWindow : bool) :
  (∀ (now : Z) (st : AppState) (ls : Storage) (m : Moment),
     m ∈ (notificationsCheck tz now NotificationInWindow st ls).1 →
     m ∈ moments st ∧ status m = active
     ∧ NotificationInWindow = true
     ∧ notificationPermission st = granted)
  ∧ (∀ (now : Z) (st : AppState) (ls : Storage),
       notificationPermission st ≠ granted →
       notificationsCheck tz now NotificationInWindow st ls = ([], ls))
  ∧ (∀ (renders : list (Z * AppState)) (ls : Storage),
       NoDup ((λ e, (id e.1, e.2))
                <$> (notificationsChecks tz NotificationInWindow renders ls).1))
  ∧ (∀ (now now' : Z) (st : AppState) (ls : Storage),
       toDateString tz now' = toDateString tz now →
       let r := notificationsCheck tz now NotificationInWindow st ls in
       notificationsCheck tz now' NotificationInWindow st r.2 = ([], r.2)).
Proof.
  split; [|split; [|split]].
  - intros now st ls m (Hm & Hwin & Hperm)%elem_of_notificationsCheck.
    apply elem_of_upcoming in Hm as (? & ? & ?). done.
  - intros now st ls Hperm. unfold notificationsCheck.
    rewrite (bool_decide_eq_false_2 _ Hperm). by rewrite andb_false_r.
  - intros renders ls. apply notificationsChecks_fresh.
  - intros now now' st ls Hday r. subst r.
    rewrite (notificationsCheck_same_day tz now now' Hday).
    unfold notificationsCheck. destruct (_ && _); [|done]. simpl.
    apply foldl_notifyMoment_marked.
    destruct (foldl_notifyMoment tz now (upcoming tz now (moments st)) [] ls)
      as (fired & _ & _ & _ & _ & Hmarked).
    done.
Qed.

(** X29.  On a host without daylight saving, the moments a check
    notifies for are dated the current local day or the next one when
    the host is on UTC or up to a day behind it, and the day before or
    the current local day when it is up to a day ahead of UTC. *)
Theorem notificationsCheck_calendar (off now : Z)
    (NotificationInWindow : bool) (st : AppState) (ls : Storage) (m : Moment) :
  m ∈ (notificationsCheck (fixedZone off) now NotificationInWindow st ls).1 →
  (- msPerDay < off ≤ 0 →
   calendarDaysRemaining (fixedZone off) now (date m) = Some 0
   ∨ calendarDaysRemaining (fixedZone off) now (date m) = Some 1)
  ∧ (0 < off ≤ msPerDay →
     calendarDaysRemaining (fixedZone off) now (date m) = Some (-1)
     ∨ calendarDaysRemaining (fixedZone off) now (date m) = Some 0).
Proof.
  intros (Hm & _ & _)%elem_of_notificationsCheck.
  apply elem_of_upcoming in Hm as (_ & _ & Hdays).
  split; intros Hoff.
  - by rewrite (daysRemaining_west_calendar off now (date m) Hoff) in Hdays.
  - rewrite (daysRemaining_east_calendar off now (date m) Hoff) in Hdays.
    destruct (calendarDaysRemaining (fixedZone off) now (date m)) as [days|];
      simpl in Hdays; [|by destruct Hdays].
    destruct Hdays as [Hdays|Hdays]; [left|right];
      injection Hdays as Hdays; f_equal; lia.
Qed.

Lemma notificationsCheck_calendar_witness :
  let now := 19792 * msPerDay + 50000000 in
  let st := app0 [ moment0 "a" (IsoDate 19792) LOW active;
                   moment0 "b" (IsoDate 19793) HIGH active;
                   moment0 "c" (IsoDate 19795) HIGH active ]
              dashboard None in
  let m := moment0 "b" (IsoDate 19793) HIGH active in
  m ∈ (notificationsCheck Bogota now true st ∅).1
  ∧ - msPerDay < - 5 * 3600000 ≤ 0
  ∧ (calendarDaysRemaining Bogota now (date m) = Some 0
     ∨ calendarDaysRemaining Bogota now (date m) = Some 1).
Proof.
  intros now st m.
  assert (m ∈ (notificationsCheck Bogota now true st ∅).1) as Hm.
  { vm_compute. apply list_elem_of_In. right. left. reflexivity. }
  assert (- msPerDay < - 5 * 3600000 ≤ 0) as Hoff by (unfold msPerDay; lia).
  split; [exact Hm|]. split; [exact Hoff|].
  exact (proj1 (notificationsCheck_calendar (- 5 * 3600000) now true st ∅ m Hm)
           Hoff).
Defined.

(** In Bogota at 08:53 local time on day 19792: one moment due that day,
    one the next day, one in three days, one completed.  The first check
    notifies for the first two; a check later that day for none; and
    with the permission denied nothing happens at all. *)
Example example_checks_in_Bogota :
  let st := app0 [ moment0 "a" (IsoDate 19792) LOW active;
                   moment0 "b" (IsoDate 19793) HIGH active;
                   moment0 "c" (IsoDate 19795) HIGH active;
                   moment0 "d" (IsoDate 19792) HIGH completed ]
              dashboard None in
  let now := 19792 * msPerDay + 50000000 in
  let r := notificationsCheck Bogota now true st ∅ in
  id <$> r.1 = ["a"; "b"]
  ∧ (notificationsCheck Bogota (now + 3600000) true st r.2).1 = []
  ∧ (notificationsCheck Bogota now true
       (setNotificationPermission denied st) ∅).1 = [].
Proof. by vm_compute. Qed.

(** * Further properties of the code *)

(** ** The two queries *)

Section sort_on_elements.
Context {A : Type} (comparefn : A → A → option Z) (key : A → Z).

(** It is enough that the comparator orders by the key on the elements
    that are there. *)
Lemma sort_insert_sorted_on x l :
  (∀ y, y ∈ l → comparefn x y = Some (key x - key y)) →
  StronglySorted (λ a b, key a ≤ key b) l →
  StronglySorted (λ a b, key a ≤ key b) (sort_insert comparefn x l).
Proof.
  intros Hcmp Hsorted. induction Hsorted as [|y l Hl IH Hy]; simpl.
  { repeat constructor. }
  unfold SortCompare. rewrite Hcmp by left. simpl. case_decide.
  - constructor; [by constructor|]. constructor; [lia|].
    eapply Forall_impl; [exact Hy|]. simpl. intros; lia.
  - constructor.
    + apply IH. intros z Hz. apply Hcmp. by right.
    + rewrite sort_insert_Permutation. constructor; [lia|done].
Qed.

Lemma sort_sorted_on l :
  (∀ x y, x ∈ l → y ∈ l → comparefn x y = Some (key x - key y)) →
  StronglySorted (λ a b, key a ≤ key b) (sort comparefn l).
Proof.
  induction l as [|x l IH]; intros Hcmp; simpl; [constructor|].
  apply sort_insert_sorted_on.
  - intros y Hy. apply Hcmp; [left|]. right. by apply elem_of_sort in Hy.
  - apply IH. intros y z Hy Hz. apply Hcmp; by right.
Qed.
End sort_on_elements.

Lemma StronglySorted_impl_elem {A} (R R' : A → A → Prop) l :
  (∀ x y, x ∈ l → y ∈ l → R x y → R' x y) →
  StronglySorted R l → StronglySorted R' l.
Proof.
  intros Himpl Hsorted. induction Hsorted as [|x l Hl IH Hx]; [constructor|].
  constructor.
  - apply IH. intros y z Hy Hz. apply Himpl; by right.
  - apply Forall_forall. intros y Hy. apply Himpl; [left|by right|].
    by eapply Forall_forall in Hx.
Qed.

Lemma getTime_valid s : s ≠ EmptyDate → ∃ d, s = IsoDate d.
Proof. destruct s as [|d]; [done|by exists d]. Qed.

Lemma sorted_by_date_asc (P : Moment → Prop) `{∀ m, Decision (P m)} ms :
  Forall (λ m, date m ≠ EmptyDate) ms →
  StronglySorted (λ a b, date_le (date a) (date b))
    (sort byDateAsc (filter P ms)).
Proof.
  intros Hvalid.
  assert (∀ m, m ∈ sort byDateAsc (filter P ms) → date m ≠ EmptyDate) as Hv.
  { intros m [_ Hm]%elem_of_sort%list_elem_of_filter.
    by eapply Forall_forall in Hvalid. }
  eapply StronglySorted_impl_elem;
    [|apply (sort_sorted_on byDateAsc (λ m, default 0 (getTime (date m))))].
  - intros a b Ha%Hv Hb%Hv.
    destruct (getTime_valid _ Ha) as [da ->], (getTime_valid _ Hb) as [db ->].
    simpl. unfold msPerDay. lia.
  - intros a b [_ Ha]%list_elem_of_filter [_ Hb]%list_elem_of_filter.
    eapply Forall_forall in Ha, Hb; [|done..]. simpl in Ha, Hb.
    destruct (getTime_valid _ Ha) as [da Hda], (getTime_valid _ Hb) as [db Hdb].
    unfold byDateAsc. by rewrite Hda, Hdb.
Qed.

Lemma sorted_by_date_desc (P : Moment → Prop) `{∀ m, Decision (P m)} ms :
  Forall (λ m, date m ≠ EmptyDate) ms →
  StronglySorted (λ a b, date_le (date b) (date a))
    (sort byDateDesc (filter P ms)).
Proof.
  intros Hvalid.
  assert (∀ m, m ∈ sort byDateDesc (filter P ms) → date m ≠ EmptyDate) as Hv.
  { intros m [_ Hm]%elem_of_sort%list_elem_of_filter.
    by eapply Forall_forall in Hvalid. }
  eapply StronglySorted_impl_elem;
    [|apply (sort_sorted_on byDateDesc (λ m, - default 0 (getTime (date m))))].
  - intros a b Ha%Hv Hb%Hv.
    destruct (getTime_valid _ Ha) as [da ->], (getTime_valid _ Hb) as [db ->].
    simpl. unfold msPerDay. lia.
  - intros a b [_ Ha]%list_elem_of_filter [_ Hb]%list_elem_of_filter.
    eapply Forall_forall in Ha, Hb; [|done..]. simpl in Ha, Hb.
    destruct (getTime_valid _ Ha) as [da Hda], (getTime_valid _ Hb) as [db Hdb].
    unfold byDateDesc. rewrite Hda, Hdb. simpl. f_equal. lia.
Qed.

(** X1.  When every moment has a date, the active moments are listed by
    ascending date and the completed and archived ones by descending
    date. *)
Theorem queries_sorted ms :
  Forall (λ m, date m ≠ EmptyDate) ms →
  StronglySorted (λ a b, date_le (date a) (date b)) (activeMoments ms)
  ∧ StronglySorted (λ a b, date_le (date b) (date a)) (completedMoments ms).
Proof.
  intros Hvalid. split.
  - by apply sorted_by_date_asc.
  - by apply sorted_by_date_desc.
Qed.

Lemma queries_sorted_witness :
  let ms := [ moment0 "a" (IsoDate 19799) HIGH active;
              moment0 "b" (IsoDate 19790) LOW completed;
              moment0 "c" (IsoDate 19795) LOW active;
              moment0 "d" (IsoDate 19793) LOW archived ] in
  Forall (λ m, date m ≠ EmptyDate) ms
  ∧ id <$> activeMoments ms = ["c"; "a"]
  ∧ id <$> completedMoments ms = ["d"; "b"]
  ∧ StronglySorted (λ a b, date_le (date a) (date b)) (activeMoments ms)
  ∧ StronglySorted (λ a b, date_le (date b) (date a)) (completedMoments ms).
Proof.
  intros ms.
  assert (Forall (λ m, date m ≠ EmptyDate) ms) as Hvalid.
  { subst ms. repeat constructor; done. }
  split; [exact Hvalid|]. split; [by vm_compute|]. split; [by vm_compute|].
  exact (queries_sorted ms Hvalid).
Defined.

Lemma not_active_iff (m : Moment) :
  ¬ status m = active ↔ status m = completed ∨ status m = archived.
Proof. destruct (status m); intuition congruence. Qed.

(** X2.  The two queries split the collection: every moment is listed by
    exactly one of them, as often as it occurs. *)
Theorem queries_partition ms :
  activeMoments ms ++ completedMoments ms ≡ₚ ms
  ∧ (∀ m, m ∈ activeMoments ms ↔ m ∈ ms ∧ status m = active)
  ∧ (∀ m, m ∈ completedMoments ms ↔ m ∈ ms ∧ status m ≠ active)
  ∧ (length (activeMoments ms) + length (completedMoments ms))%nat = length ms.
Proof.
  assert (activeMoments ms ++ completedMoments ms ≡ₚ ms) as Hperm.
  { unfold activeMoments, completedMoments. rewrite !sort_Permutation.
    rewrite (list_filter_iff (λ m, status m = completed ∨ status m = archived)
               (λ m, ¬ status m = active))
      by (intros m; by rewrite not_active_iff).
    apply filter_app_complement. }
  split; [done|]. split; [|split].
  - intros m. unfold activeMoments.
    rewrite elem_of_sort, list_elem_of_filter. tauto.
  - intros m. unfold completedMoments.
    rewrite elem_of_sort, list_elem_of_filter, <-not_active_iff. tauto.
  - by rewrite <-length_app, Hperm.
Qed.

(** X3.  The dashboard shows at most three moments, all of them active,
    and when every moment has a date no active moment it leaves out is
    due before one it shows. *)
Theorem dashboardCards_soonest ms :
  (length (dashboardCards ms) ≤ 3)%nat
  ∧ (∀ m, m ∈ dashboardCards ms → m ∈ ms ∧ status m = active)
  ∧ (Forall (λ m, date m ≠ EmptyDate) ms →
     ∀ shown hidden,
       shown ∈ dashboardCards ms →
       hidden ∈ drop 3 (activeMoments ms) →
       date_le (date shown) (date hidden)).
Proof.
  unfold dashboardCards. split; [rewrite length_take; lia|]. split.
  - intros m Hm%subseteq_take. unfold activeMoments in Hm.
    apply elem_of_sort, list_elem_of_filter in Hm. tauto.
  - intros Hvalid shown hidden Hshown Hhidden.
    pose proof (sorted_by_date_asc (λ m, status m = active) ms Hvalid) as Hs.
    fold (activeMoments ms) in Hs.
    rewrite <-(take_drop 3 (activeMoments ms)) in Hs.
    exact (StronglySorted_app_1_elem_of _ _ _ shown hidden Hs Hshown Hhidden).
Qed.

(** ** The repository, continued *)

Lemma NoDup_id_eq (l : list Moment) m m' :
  NoDup (id <$> l) → m ∈ l → m' ∈ l → id m = id m' → m = m'.
Proof.
  induction l as [|x l IH]; [by intros _ ?%elem_of_nil|].
  rewrite fmap_cons, NoDup_cons.
  intros [Hx Hl] [->|Hm]%elem_of_cons [->|Hm']%elem_of_cons Hid; [done|..].
  - destruct Hx. rewrite Hid. apply list_elem_of_fmap. by exists m'.
  - destruct Hx. rewrite <-Hid. apply list_elem_of_fmap. by exists m.
  - by apply IH.
Qed.

Lemma replace_absent u (l : list Moment) :
  (∀ m, m ∈ l → id m ≠ id u) →
  (λ m, if decide (id m = id u) then u else m) <$> l = l.
Proof.
  induction l as [|x l IH]; intros Habs; [done|].
  rewrite fmap_cons, IH by (intros m Hm; apply Habs; by right).
  rewrite decide_False; [done|]. apply Habs. left.
Qed.

Lemma replace_at u (l : list Moment) : ∀ k m,
  NoDup (id <$> l) → l !! k = Some m → id m = id u →
  (λ m, if decide (id m = id u) then u else m) <$> l = <[k := u]> l.
Proof.
  induction l as [|x l IH]; intros k m Hnodup Hk Hid; [done|].
  rewrite fmap_cons, NoDup_cons in Hnodup. destruct Hnodup as [Hx Hl].
  destruct k as [|k]; simpl in *.
  - injection Hk as ->. rewrite decide_True by done. f_equal.
    apply replace_absent. intros m' Hm' Heq. destruct Hx.
    rewrite Hid, <-Heq. apply list_elem_of_fmap. by exists m'.
  - rewrite decide_False.
    + f_equal. by eapply IH.
    + intros Heq. destruct Hx. rewrite Heq, <-Hid.
      apply list_elem_of_fmap. exists m. split; [done|].
      by eapply list_elem_of_lookup_2.
Qed.

Lemma filter_all {A} (P : A → Prop) `{∀ x, Decision (P x)} (l : list A) :
  (∀ x, x ∈ l → P x) → filter P l = l.
Proof.
  induction l as [|x l IH]; intros Hall; [done|].
  rewrite filter_cons_True by (apply Hall; left).
  f_equal. apply IH. intros y Hy. apply Hall. by right.
Qed.

(** X4.  Deleting by id removes every moment with that id and keeps the
    others in their order; the selection is cleared and the dashboard
    shown exactly when the deleted id was the selected one; deleting an
    id that is not there leaves the collection as it is, and deleting
    twice is deleting once. *)
Theorem deleteMoment_removes i st :
  (∀ m, m ∈ moments (deleteMoment i st) ↔ m ∈ moments st ∧ id m ≠ i)
  ∧ moments (deleteMoment i st) `sublist_of` moments st
  ∧ (selectedMomentId st = Some i →
     selectedMomentId (deleteMoment i st) = None
     ∧ view (deleteMoment i st) = dashboard)
  ∧ (selectedMomentId st ≠ Some i →
     selectedMomentId (deleteMoment i st) = selectedMomentId st
     ∧ view (deleteMoment i st) = view st)
  ∧ ((∀ m, m ∈ moments st → id m ≠ i) →
     moments (deleteMoment i st) = moments st)
  ∧ deleteMoment i (deleteMoment i st) = deleteMoment i st.
Proof.
  assert (moments (deleteMoment i st) = filter (λ m, id m ≠ i) (moments st))
    as Hms.
  { unfold deleteMoment. by case_decide. }
  rewrite Hms. split; [|split; [|split; [|split; [|split]]]].
  - intros m. rewrite list_elem_of_filter. tauto.
  - apply sublist_filter.
  - intros Hsel. unfold deleteMoment. by rewrite decide_True.
  - intros Hsel. unfold deleteMoment. by rewrite decide_False.
  - intros Habs. by apply filter_all.
  - unfold deleteMoment at 1. rewrite Hms.
    assert (filter (λ m, id m ≠ i) (filter (λ m, id m ≠ i) (moments st))
            = filter (λ m, id m ≠ i) (moments st)) as Hidem.
    { apply filter_all. by intros m [? _]%list_elem_of_filter. }
    unfold deleteMoment.
    destruct (decide (selectedMomentId st = Some i)); simpl;
      rewrite Hidem; [done|by rewrite decide_False].
Qed.

(** X5.  An update keeps the ids of the collection and their order, the
    view and the selection; applying it twice is applying it once;
    updates of moments with different ids commute; and where the ids of
    the collection are distinct it replaces the one moment with that id
    in place. *)
Theorem updateMoment_in_place u st :
  id <$> moments (updateMoment u st) = id <$> moments st
  ∧ view (updateMoment u st) = view st
  ∧ selectedMomentId (updateMoment u st) = selectedMomentId st
  ∧ updateMoment u (updateMoment u st) = updateMoment u st
  ∧ (∀ v, id v ≠ id u →
       updateMoment u (updateMoment v st) = updateMoment v (updateMoment u st))
  ∧ (NoDup (id <$> moments st) →
     ∀ k m, moments st !! k = Some m → id m = id u →
       moments (updateMoment u st) = <[k := u]> (moments st)).
Proof.
  split; [|split; [done|split; [done|split; [|split]]]].
  - simpl. rewrite <-list_fmap_compose. apply list_fmap_ext.
    intros k m _. simpl. by case_decide.
  - unfold updateMoment, setMoments. simpl. f_equal.
    rewrite <-list_fmap_compose. apply list_fmap_ext.
    intros k m _. simpl.
    destruct (decide (id m = id u)); simpl;
      [by rewrite decide_True|by rewrite decide_False].
  - intros v Hne. unfold updateMoment, setMoments. simpl. f_equal.
    rewrite <-!list_fmap_compose. apply list_fmap_ext.
    intros k m _. simpl. repeat case_decide; congruence.
  - intros Hnodup k m Hk Hid. simpl. by eapply replace_at.
Qed.

Lemma updateMoment_in_place_witness :
  let st := app0 [ moment0 "a" (IsoDate 19795) LOW active;
                   moment0 "b" (IsoDate 19799) HIGH active;
                   moment0 "c" (IsoDate 19800) LOW completed ] details (Some "b") in
  let u := moment0 "b" (IsoDate 19806) HIGH active in
  NoDup (id <$> moments st)
  ∧ moments st !! 1%nat = Some (moment0 "b" (IsoDate 19799) HIGH active)
  ∧ moments (updateMoment u st) = <[1%nat := u]> (moments st).
Proof.
  intros st u.
  assert (NoDup (id <$> moments st)) as Hnodup by compute_done.
  split; [exact Hnodup|]. split; [reflexivity|].
  exact (proj2 (proj2 (proj2 (proj2 (proj2 (updateMoment_in_place u st)))))
           Hnodup 1%nat _ eq_refl eq_refl).
Defined.

(** ** Creating and editing *)

Lemma text_imap_tasks (g : nat → string) (texts : list string) :
  text <$> imap (λ k txt, {| Task_id := g k; text := txt; isCompleted := false |})
             texts
  = texts.
Proof.
  revert g. induction texts as [|txt texts IH]; intros g; [done|].
  rewrite imap_cons, fmap_cons. simpl. f_equal. apply (IH (g ∘ S)).
Qed.

Lemma isCompleted_imap_tasks (g : nat → string) (texts : list string) :
  Forall (λ t, isCompleted t = false)
    (imap (λ k txt, {| Task_id := g k; text := txt; isCompleted := false |})
       texts).
Proof.
  revert g. induction texts as [|txt texts IH]; intros g; [constructor|].
  rewrite imap_cons. constructor; [done|]. apply (IH (g ∘ S)).
Qed.

(** X6.  Saving the create form with a title and a date appends one
    moment to the collection and shows the dashboard.  The new moment is
    active, has no reflection, carries the form's values, one task per
    text entered, in order and not completed, and one emotion log with
    the chosen emotion; it is among the active moments. *)
Theorem handleSave_appends generateId clock newTitle newDate newType
    newPriority taskTexts emo newNotes st :
  newTitle ≠ EmptyString → newDate ≠ EmptyDate →
  ∃ m,
    moments (handleSave generateId clock newTitle newDate newType newPriority
               taskTexts emo newNotes st)
    = moments st ++ [m]
    ∧ view (handleSave generateId clock newTitle newDate newType newPriority
              taskTexts emo newNotes st) = dashboard
    ∧ id m = generateId 0%nat ∧ title m = newTitle ∧ date m = newDate
    ∧ type m = newType ∧ priority m = newPriority ∧ notes m = newNotes
    ∧ status m = active ∧ reflection m = None
    ∧ text <$> tasks m = taskTexts
    ∧ Forall (λ t, isCompleted t = false) (tasks m)
    ∧ initialEmotion m = emo
    ∧ (∃ log, emotionHistory m = [log] ∧ emotion log = emo)
    ∧ m ∈ activeMoments
            (moments (handleSave generateId clock newTitle newDate newType
                        newPriority taskTexts emo newNotes st)).
Proof.
  intros Htitle Hdate. unfold handleSave.
  rewrite decide_False by tauto. eexists.
  split; [reflexivity|]. split; [reflexivity|]. simpl.
  repeat (split; [reflexivity|]).
  split; [apply (text_imap_tasks (generateId ∘ S))|].
  split; [apply (isCompleted_imap_tasks (generateId ∘ S))|].
  split; [reflexivity|]. split; [by eexists|].
  unfold activeMoments. apply elem_of_sort, list_elem_of_filter.
  split; [done|]. apply elem_of_app. right. left.
Qed.

Lemma handleSave_appends_witness :
  let st := app0 [moment0 "a" (IsoDate 19795) LOW active] create None in
  let st' := handleSave (λ k, match k with O => "m" | S O => "t1" | _ => "t2" end)
               (λ _, 19792 * msPerDay) "Trip" (IsoDate 19800) TRAVEL HIGH
               ["pack"; "book"] EXCITED "sun" st in
  "Trip" ≠ EmptyString ∧ IsoDate 19800 ≠ EmptyDate
  ∧ ∃ m, moments st' = moments st ++ [m] ∧ view st' = dashboard
         ∧ status m = active ∧ text <$> tasks m = ["pack"; "book"].
Proof.
  intros st st'. split; [done|]. split; [done|].
  destruct (handleSave_appends
              (λ k, match k with O => "m" | S O => "t1" | _ => "t2" end)
              (λ _, 19792 * msPerDay) "Trip" (IsoDate 19800) TRAVEL HIGH
              ["pack"; "book"] EXCITED "sun" st)
    as (m & Hms & Hview & _ & _ & _ & _ & _ & _ & Hstatus & _ & Htexts & _);
    [done|done|].
  exists m. by repeat split.
Defined.

(** X7.  Saving the edit form with a title and a date shows the detail
    view, keeps the ids of the collection, and writes the form's values
    into the moment with the selected id, whose id, status, creation
    time, emotions and reflection it keeps; the other moments stay as
    they are. *)
Theorem handleUpdate_frame newTitle newDate newType newPriority newNotes
    newTasks moment st :
  selectedMoment st = Some moment →
  newTitle ≠ EmptyString → newDate ≠ EmptyDate →
  view (handleUpdate newTitle newDate newType newPriority newNotes newTasks st)
  = details
  ∧ id <$> moments (handleUpdate newTitle newDate newType newPriority newNotes
                      newTasks st)
    = id <$> moments st
  ∧ ∀ m', m' ∈ moments (handleUpdate newTitle newDate newType newPriority
                          newNotes newTasks st) →
      (id m' = id moment ∧ title m' = newTitle ∧ date m' = newDate
       ∧ type m' = newType ∧ priority m' = newPriority
       ∧ notes m' = newNotes ∧ tasks m' = newTasks
       ∧ status m' = status moment ∧ createdAt m' = createdAt moment
       ∧ initialEmotion m' = initialEmotion moment
       ∧ emotionHistory m' = emotionHistory moment
       ∧ reflection m' = reflection moment)
      ∨ (id m' ≠ id moment ∧ m' ∈ moments st).
Proof.
  intros Hsel Htitle Hdate. unfold handleUpdate.
  rewrite Hsel, decide_False by tauto.
  split; [done|]. split.
  - simpl. rewrite <-list_fmap_compose. apply list_fmap_ext.
    intros k m _. simpl. by case_decide.
  - intros m'. simpl. rewrite list_elem_of_fmap. intros (m & -> & Hm).
    case_decide; [left; by repeat split|by right].
Qed.

Lemma handleUpdate_frame_witness :
  let moment := moment0 "b" (IsoDate 19799) HIGH active in
  let st := app0 [moment0 "a" (IsoDate 19795) LOW active; moment] edit (Some "b") in
  let st' := handleUpdate "Finals" (IsoDate 19806) STUDY LOW "room 4" [] st in
  selectedMoment st = Some moment
  ∧ view st' = details
  ∧ id <$> moments st' = id <$> moments st.
Proof.
  intros moment st st'.
  assert (selectedMoment st = Some moment) as Hsel by reflexivity.
  split; [exact Hsel|].
  destruct (handleUpdate_frame "Finals" (IsoDate 19806) STUDY LOW "room 4" []
              moment st Hsel) as (Hview & Hids & _); done.
Defined.

(** ** Tasks and emotions of the selected moment *)

Lemma selectedMoment_updateMoment u moment st :
  selectedMoment st = Some moment → id u = id moment →
  selectedMoment (updateMoment u st) = Some u.
Proof.
  unfold selectedMoment. simpl.
  destruct (selectedMomentId st) as [i|]; [|done]. simpl.
  intros Hsel Hid. rewrite list_find_fmap.
  rewrite (list_find_ext _ (λ m, id m = i)).
  - destruct (list_find _ _) as [[k m]|] eqn:Hfind; [|done].
    simpl in *. injection Hsel as ->. by rewrite decide_True.
  - intros m. simpl. case_decide; [|done]. split; congruence.
Qed.

Lemma updateMoment_self m st :
  NoDup (id <$> moments st) → m ∈ moments st → updateMoment m st = st.
Proof.
  intros Hnodup [k Hk]%list_elem_of_lookup_1. unfold updateMoment.
  rewrite (replace_at m (moments st) k m), list_insert_id by done.
  apply setMoments_same.
Qed.

Lemma updateMoment_overwrite u v st :
  id u = id v → updateMoment u (updateMoment v st) = updateMoment u st.
Proof.
  intros Hid. unfold updateMoment, setMoments. simpl. f_equal.
  rewrite <-list_fmap_compose. apply list_fmap_ext. intros k m _. simpl.
  rewrite <-Hid. destruct (decide (id m = id u)); simpl;
    [by rewrite decide_True|by rewrite decide_False].
Qed.

Lemma toggle_twice taskId (ts : list Task) :
  (λ t, if decide (Task_id t = taskId)
        then {| Task_id := Task_id t; text := text t;
                isCompleted := negb (isCompleted t) |}
        else t)
    <$> ((λ t, if decide (Task_id t = taskId)
               then {| Task_id := Task_id t; text := text t;
                       isCompleted := negb (isCompleted t) |}
               else t) <$> ts)
  = ts.
Proof.
  rewrite <-list_fmap_compose. rewrite <-(list_fmap_id ts) at 2.
  apply list_fmap_ext. intros k [i txt b] _. simpl.
  destruct (decide (i = taskId)); simpl;
    [rewrite decide_True by done; by rewrite negb_involutive
    |by rewrite decide_False].
Qed.

(** X8.  With distinct ids in the collection, a click on a task of the
    selected moment keeps the ids, texts and order of its tasks and
    flips the completion of the tasks with the clicked id and of no
    other; a second click on the same task gives back the state before
    the first. *)
Theorem toggleTask_flips taskId moment st :
  NoDup (id <$> moments st) → selectedMoment st = Some moment →
  ∃ m1,
    selectedMoment (toggleTask taskId moment st) = Some m1
    ∧ Task_id <$> tasks m1 = Task_id <$> tasks moment
    ∧ text <$> tasks m1 = text <$> tasks moment
    ∧ (∀ k t, tasks moment !! k = Some t →
         ∃ t1, tasks m1 !! k = Some t1
               ∧ isCompleted t1
                 = if decide (Task_id t = taskId)
                   then negb (isCompleted t) else isCompleted t)
    ∧ toggleTask taskId m1 (toggleTask taskId moment st) = st.
Proof.
  intros Hnodup Hsel. eexists.
  split; [unfold toggleTask at 1; by eapply selectedMoment_updateMoment|].
  simpl. split; [|split; [|split]].
  - rewrite <-list_fmap_compose. apply list_fmap_ext.
    intros k t _. simpl. by case_decide.
  - rewrite <-list_fmap_compose. apply list_fmap_ext.
    intros k t _. simpl. by case_decide.
  - intros k t Hk. rewrite list_lookup_fmap, Hk. simpl.
    eexists. split; [done|]. by case_decide.
  - unfold toggleTask. simpl. rewrite toggle_twice.
    rewrite updateMoment_overwrite by done.
    apply selectedMoment_Some in Hsel as [Hin _].
    destruct moment. by apply updateMoment_self.
Qed.

Lemma toggleTask_flips_witness :
  let moment :=
    {| id := "a"; title := "Exam"; date := IsoDate 19800; type := STUDY;
       priority := LOW; initialEmotion := HAPPY; notes := EmptyString;
       tasks := [ {| Task_id := "t1"; text := "read"; isCompleted := false |};
                  {| Task_id := "t2"; text := "revise"; isCompleted := true |} ];
       status := active; createdAt := 0; emotionHistory := [];
       reflection := None |} in
  let st := app0 [moment; moment0 "b" (IsoDate 19799) HIGH active]
              details (Some "a") in
  NoDup (id <$> moments st) ∧ selectedMoment st = Some moment
  ∧ ∃ m1, selectedMoment (toggleTask "t1" moment st) = Some m1
          ∧ isCompleted <$> tasks m1 = [true; true]
          ∧ toggleTask "t1" m1 (toggleTask "t1" moment st) = st.
Proof.
  intros moment st.
  assert (NoDup (id <$> moments st)) as Hnodup by compute_done.
  assert (selectedMoment st = Some moment) as Hsel by reflexivity.
  split; [exact Hnodup|]. split; [exact Hsel|].
  destruct (toggleTask_flips "t1" moment st Hnodup Hsel)
    as (m1 & Hsel1 & _ & _ & _ & Hback).
  exists m1. split; [exact Hsel1|]. split; [|exact Hback].
  vm_compute in Hsel1. by injection Hsel1 as <-.
Defined.

Lemma allLogs_app l1 l2 : allLogs (l1 ++ l2) = allLogs l1 ++ allLogs l2.
Proof. unfold allLogs. apply bind_app. Qed.

Lemma allLogs_cons m l :
  allLogs (m :: l)
  = ((λ log, {| point_date := EmotionLog_date log;
                score := emotionScore (emotion log) |}) <$> emotionHistory m)
    ++ allLogs l.
Proof. by rewrite !allLogs_concat. Qed.

(** X9.  With distinct ids in the collection, an emotion check-in on the
    selected moment appends one log to its history, leaving the earlier
    logs as they were, and adds exactly one point to the emotion
    timeline: the time of the check-in with the score of the emotion. *)
Theorem addEmotionLog_timeline generateId clock emo moment st :
  NoDup (id <$> moments st) → selectedMoment st = Some moment →
  ∃ m1,
    selectedMoment (addEmotionLog generateId clock emo moment st) = Some m1
    ∧ emotionHistory m1
      = emotionHistory moment
        ++ [ {| EmotionLog_id := generateId 0%nat;
                EmotionLog_date := clock 0%nat;
                emotion := emo; note := None |} ]
    ∧ emotionData (moments (addEmotionLog generateId clock emo moment st))
      ≡ₚ {| point_date := clock 0%nat; score := emotionScore emo |}
         :: emotionData (moments st).
Proof.
  intros Hnodup Hsel. eexists.
  split; [unfold addEmotionLog at 1; by eapply selectedMoment_updateMoment|].
  split; [done|].
  apply selectedMoment_Some in Hsel as [[k Hk]%list_elem_of_lookup_1 _].
  unfold emotionData. rewrite !sort_Permutation.
  unfold addEmotionLog, updateMoment, setMoments. cbn [moments].
  erewrite replace_at by done.
  rewrite insert_take_drop by (by eapply lookup_lt_Some).
  rewrite <-(take_drop_middle (moments st) k moment) at 3 by done.
  rewrite !allLogs_app, !allLogs_cons. simpl. rewrite fmap_app. simpl.
  rewrite <-!app_assoc. simpl.
  rewrite <-Permutation_middle. by rewrite <-Permutation_middle.
Qed.

Lemma addEmotionLog_timeline_witness :
  let moment := moment0 "a" (IsoDate 19800) LOW active in
  let st := app0 [moment; moment0 "b" (IsoDate 19799) HIGH active]
              details (Some "a") in
  NoDup (id <$> moments st) ∧ selectedMoment st = Some moment
  ∧ emotionData (moments (addEmotionLog (λ _, "l") (λ _, 700) WORRIED moment st))
    ≡ₚ {| point_date := 700; score := 1 |} :: emotionData (moments st).
Proof.
  intros moment st.
  assert (NoDup (id <$> moments st)) as Hnodup by compute_done.
  assert (selectedMoment st = Some moment) as Hsel by reflexivity.
  split; [exact Hnodup|]. split; [exact Hsel|].
  destruct (addEmotionLog_timeline (λ _, "l") (λ _, 700) WORRIED moment st
              Hnodup Hsel) as (m1 & _ & _ & Hperm).
  exact Hperm.
Defined.

(** ** What every run of the application keeps *)

Lemma selectedMoment_ext st st' :
  moments st' = moments st → selectedMomentId st' = selectedMomentId st →
  selectedMoment st' = selectedMoment st.
Proof. unfold selectedMoment. by intros -> ->. Qed.

Lemma updateMoment_ids u st :
  id <$> moments (updateMoment u st) = id <$> moments st.
Proof.
  simpl. rewrite <-list_fmap_compose. apply list_fmap_ext.
  intros k m _. simpl. by case_decide.
Qed.

Lemma passive_view v :
  v = dashboard ∨ v = create ∨ v = stats ∨ v = settings →
  ¬ (v = details ∨ v = edit ∨ v = memory).
Proof. intros [->|[->|[->| ->]]] [?|[?|?]]; done. Qed.

Lemma consistent_passive st st' :
  moments st' = moments st →
  view st' = dashboard ∨ view st' = create ∨ view st' = stats
  ∨ view st' = settings →
  consistent st → consistent st'.
Proof.
  intros Hms Hv (Hnodup & Hwf & _). unfold consistent. rewrite Hms.
  split; [done|]. split; [done|]. intros Hv'. by destruct (passive_view _ Hv).
Qed.

Lemma consistent_same st st' :
  moments st' = moments st → selectedMomentId st' = selectedMomentId st →
  (∀ m, selectedMoment st = Some m → status m = active) →
  consistent st → consistent st'.
Proof.
  intros Hms Hsel Hact (Hnodup & Hwf & _). unfold consistent.
  rewrite (selectedMoment_ext st st') by done. rewrite Hms. done.
Qed.

Lemma consistent_open i st :
  i ∈ id <$> take 3 (activeMoments (moments st)) →
  consistent st →
  consistent (setView details (setSelectedMomentId (Some i) st)).
Proof.
  intros (m0 & -> & Hm0)%list_elem_of_fmap (Hnodup & Hwf & _).
  apply subseteq_take in Hm0. unfold activeMoments in Hm0.
  apply elem_of_sort, list_elem_of_filter in Hm0 as [Hact Hm0].
  split; [done|]. split; [done|]. intros _ m Hsel.
  apply selectedMoment_Some in Hsel as [Hm Hid]. simpl in Hm, Hid.
  injection Hid as Hid. by rewrite <-(NoDup_id_eq _ m0 m Hnodup Hm0 Hm Hid).
Qed.

Lemma consistent_update u moment st st' :
  consistent st → selectedMoment st = Some moment →
  id u = id moment → wellFormed u →
  moments st' = moments (updateMoment u st) →
  selectedMomentId st' = selectedMomentId st →
  (view st' = details ∨ view st' = edit ∨ view st' = memory →
   status u = active) →
  consistent st'.
Proof.
  intros (Hnodup & Hwf & _) Hsel Hid Hu Hms Hselid Hview.
  apply selectedMoment_Some in Hsel as [Hin Hselected].
  unfold consistent. split; [|split].
  - by rewrite Hms, updateMoment_ids.
  - intros m'. rewrite Hms.
    intros [[-> _]|[Hm' _]]%elem_of_updateMoment; [done|by apply Hwf].
  - intros Hv m' Hsel'. apply selectedMoment_Some in Hsel' as [Hm' Hid'].
    rewrite Hms in Hm'. rewrite Hselid, Hselected in Hid'.
    injection Hid' as Hid'.
    apply elem_of_updateMoment in Hm' as [[-> _]|[_ Hne]]; [by apply Hview|].
    congruence.
Qed.

Lemma consistent_update_view v u moment st :
  consistent st → selectedMoment st = Some moment →
  id u = id moment → wellFormed u →
  (v = details ∨ v = edit ∨ v = memory → status u = active) →
  consistent (setView v (updateMoment u st)).
Proof. intros. by eapply (consistent_update u moment st). Qed.

Lemma consistent_update_keep u moment st :
  consistent st → selectedMoment st = Some moment →
  id u = id moment → wellFormed u → status u = active →
  consistent (updateMoment u st).
Proof. intros. by eapply (consistent_update u moment st). Qed.

Lemma consistent_handleSave generateId clock newTitle newDate newType
    newPriority taskTexts emo newNotes st :
  generateId 0%nat ∉ id <$> moments st →
  consistent st →
  consistent (handleSave generateId clock newTitle newDate newType newPriority
                taskTexts emo newNotes st).
Proof.
  intros Hfresh Hst. unfold handleSave. case_decide as Hempty; [done|].
  destruct Hst as (Hnodup & Hwf & _). split; [|split].
  - simpl. rewrite fmap_app. apply NoDup_app. split; [done|].
    split; [|apply NoDup_singleton].
    intros i Hi ->%list_elem_of_singleton. done.
  - intros m. simpl. rewrite elem_of_app, list_elem_of_singleton.
    intros [Hm| ->]; [by apply Hwf|].
    split; [tauto|]. split; [tauto|]. by left.
  - simpl. intros [?|[?|?]]; done.
Qed.

Lemma consistent_deleteMoment moment st :
  selectedMoment st = Some moment →
  consistent st → consistent (deleteMoment (id moment) st).
Proof.
  intros [_ Hsel]%selectedMoment_Some (Hnodup & Hwf & _).
  unfold deleteMoment. rewrite decide_True by done.
  split; [|split].
  - simpl. eapply sublist_NoDup; [exact Hnodup|].
    apply fmap_sublist, sublist_filter.
  - intros m. simpl. rewrite list_elem_of_filter. intros [_ Hm]. by apply Hwf.
  - simpl. intros [?|[?|?]]; done.
Qed.

Lemma wellFormed_same_core m u :
  title u = title m → date u = date m → status u = status m →
  reflection u = reflection m → wellFormed m → wellFormed u.
Proof. unfold wellFormed. by intros -> -> -> ->. Qed.

Lemma consistent_handleUpdate newTitle newDate newType newPriority newNotes
    newTasks st :
  view st = edit → consistent st →
  consistent (handleUpdate newTitle newDate newType newPriority newNotes
                newTasks st).
Proof.
  intros Hv Hst. unfold handleUpdate.
  destruct (selectedMoment st) as [moment|] eqn:Hsel; [|done].
  case_decide as Hempty; [done|].
  assert (status moment = active) as Hact.
  { destruct Hst as (_ & _ & Hview). apply Hview; auto. }
  assert (wellFormed moment) as Hwf.
  { destruct Hst as (_ & Hwf & _). apply Hwf.
    by apply selectedMoment_Some in Hsel as [? _]. }
  apply (consistent_update_view _ _ moment); try done.
  split; [tauto|]. split; [tauto|]. simpl.
  destruct Hwf as (_ & _ & Hcore). done.
Qed.

Lemma consistent_handleSaveReflection clock given lessons repeatable st :
  rating_cell given → consistent st →
  consistent (handleSaveReflection clock given lessons repeatable st).
Proof.
  intros Hcell Hst. unfold handleSaveReflection.
  destruct (selectedMoment st) as [moment|] eqn:Hsel; [|done].
  case_decide as Hzero; [done|].
  assert (wellFormed moment) as (Htitle & Hdate & _).
  { destruct Hst as (_ & Hwf & _). apply Hwf.
    by apply selectedMoment_Some in Hsel as [? _]. }
  apply (consistent_update_view _ _ moment); try done.
  - split; [done|]. split; [done|]. right. split; [done|]. simpl.
    eexists. split; [done|]. simpl.
    destruct (rating_cell_range given Hcell); [done|lia].
  - intros [?|[?|?]]; done.
Qed.

Lemma navTarget_passive v :
  navTarget v = true →
  v = dashboard ∨ v = create ∨ v = stats ∨ v = settings.
Proof. unfold navTarget. by intros ?%bool_decide_eq_true. Qed.

Lemma consistent_step tz st i :
  consistent st → admissible st i → consistent (stepInput tz st i).
Proof.
  intros Hst Hadm. unfold stepInput, step, admissible in *.
  assert (view st = details ∨ view st = edit ∨ view st = memory →
          ∀ m, selectedMoment st = Some m → status m = active) as Hactive.
  { by destruct Hst as (_ & _ & ?). }
  assert (∀ v, v = dashboard ∨ v = create ∨ v = stats ∨ v = settings →
               consistent (setView v st)) as Hpassive.
  { intros v Hv. by apply (consistent_passive st). }
  destruct (input_event i) eqn:Hev; try destruct (view st) eqn:Hv;
    try done;
    try (by apply Hpassive; auto);
    try (destruct (navTarget _) eqn:Hnav; [|done];
         by apply Hpassive, navTarget_passive);
    try (case_decide; [|done]; by apply consistent_open);
    try (by apply consistent_handleSave);
    try (by destruct (selectedMoment st));
    try (destruct (selectedMoment st) as [moment|] eqn:Hsel; [|done];
         by (destruct (isPast _ _ _); try done; by apply Hpassive; auto)).
  all: try (destruct (selectedMoment st) as [moment|] eqn:Hsel; [|done]).
  all: try (assert (status moment = active) as Hact by (apply Hactive; auto)).
  all: try (assert (wellFormed moment) as Hwf
              by (destruct Hst as (_ & Hwf & _); apply Hwf;
                  by apply selectedMoment_Some in Hsel as [? _])).
  all: try (by apply consistent_handleUpdate).
  all: try (by apply consistent_handleSaveReflection).
  all: try (destruct (isPast _ _ _); try done).
  all: try (by apply Hpassive; auto).
  all: try (by apply (consistent_same st);
              [done|done
              |intros m Hm; rewrite Hsel in Hm; by injection Hm as <-
              |done]).
  all: try (by apply consistent_deleteMoment).
  all: try (by apply (consistent_update_keep _ moment);
              [done|done|done|by eapply wellFormed_same_core|done]).
  (* what is left is the postpone button *)
  - unfold postpone. destruct (postponedDate tz (date moment)) as [d|] eqn:Hd;
      [|done].
    apply (consistent_update_keep _ moment); try done.
    destruct Hwf as (Htitle & _ & Hcore). split; [done|]. split; [|done].
    simpl. unfold postponedDate in Hd. destruct (getTime (date moment)); [|done].
    simpl in Hd. by injection Hd as <-.
Qed.

Lemma completed_kept_update u sel st m :
  consistent st → selectedMoment st = Some sel → status sel = active →
  id u = id sel → m ∈ moments st → status m = completed →
  m ∈ moments (updateMoment u st).
Proof.
  intros (Hnodup & _ & _) [Hsel _]%selectedMoment_Some Hact Hid Hm Hdone.
  apply elem_of_updateMoment. right. split; [done|].
  intros Heq. rewrite Hid in Heq.
  rewrite (NoDup_id_eq _ m sel Hnodup Hm Hsel Heq) in Hdone. congruence.
Qed.

Lemma completed_kept_step tz st i m :
  consistent st → m ∈ moments st → status m = completed →
  m ∈ moments (stepInput tz st i).
Proof.
  intros Hst Hm Hdone. unfold stepInput, step.
  assert (view st = details ∨ view st = edit ∨ view st = memory →
          ∀ m, selectedMoment st = Some m → status m = active) as Hactive.
  { by destruct Hst as (_ & _ & ?). }
  destruct (input_event i) eqn:Hev; try destruct (view st) eqn:Hv;
    try done;
    try (by destruct (navTarget _));
    try (by case_decide);
    try (by destruct (selectedMoment st));
    try (destruct (selectedMoment st) as [moment|] eqn:Hsel; [|done];
         by destruct (isPast _ _ _)).
  all: try (destruct (selectedMoment st) as [moment|] eqn:Hsel; [|done]).
  all: try (assert (status moment = active) as Hact by (apply Hactive; auto)).
  all: try (destruct (isPast _ _ _); try done).
  all: try (by eapply completed_kept_update).
  - unfold handleSave. case_decide; [done|]. simpl. apply elem_of_app. by left.
  - unfold handleUpdate. rewrite Hsel. case_decide; [done|].
    by eapply completed_kept_update.
  - unfold handleSaveReflection. rewrite Hsel. case_decide; [done|].
    by eapply completed_kept_update.
  - unfold postpone. destruct (postponedDate tz (date moment)); [|done].
    by eapply completed_kept_update.
  - unfold deleteMoment.
    assert (m ∈ filter (λ m0, id m0 ≠ id moment) (moments st)) as Hkept.
    { apply list_elem_of_filter. split; [|done]. intros Heq.
      destruct Hst as (Hnodup & _ & _).
      apply selectedMoment_Some in Hsel as [Hsel _].
      rewrite (NoDup_id_eq _ m moment Hnodup Hm Hsel Heq) in Hdone.
      congruence. }
    by case_decide.
Qed.

(** X10.  From a state in which the ids are distinct, every moment is
    well formed and the detail, edit and memory views are open on an
    active moment (the empty collection on the dashboard is one), every
    series of events leads to such a state again, provided each new
    moment draws an unused id and ratings are set by the stars.  So
    every moment always has a title and a date, an active moment never
    carries a reflection, a completed one always carries one rated 1 to
    5, and no moment is ever archived. *)
Theorem run_consistent tz inputs st :
  consistent st → admissibleRun tz inputs st →
  consistent (run tz inputs st)
  ∧ ∀ m, m ∈ moments (run tz inputs st) →
      title m ≠ EmptyString ∧ date m ≠ EmptyDate
      ∧ (status m = active → reflection m = None)
      ∧ (status m = completed →
         ∃ r, reflection m = Some r ∧ 1 ≤ rating r ≤ 5)
      ∧ status m ≠ archived.
Proof.
  intros Hst Hadm.
  assert (consistent (run tz inputs st)) as Hrun.
  { revert st Hst Hadm. induction inputs as [|i inputs IH]; intros st Hst Hadm;
      [done|].
    destruct Hadm as [Hi Hadm]. apply IH; [|done]. by apply consistent_step. }
  split; [done|]. intros m Hm.
  destruct Hrun as (_ & Hwf & _).
  destruct (Hwf m Hm) as (Htitle & Hdate & [[Hs Hr]|[Hs Hr]]);
    rewrite Hs; repeat split; try done.
Qed.

Lemma run_consistent_witness :
  let st := app0 [] dashboard None in
  let gen := λ k : nat, match k with O => "m1" | _ => "t" end in
  let inputs :=
    [ {| input_now := 19792 * msPerDay; input_generateId := gen;
         input_clock := λ _, 19792 * msPerDay; input_event := NavBar create |};
      {| input_now := 19792 * msPerDay; input_generateId := gen;
         input_clock := λ _, 19792 * msPerDay;
         input_event := ClickSave "Trip" (IsoDate 19790) TRAVEL HIGH ["pack"]
                          EXCITED EmptyString |};
      {| input_now := 19792 * msPerDay; input_generateId := gen;
         input_clock := λ _, 19792 * msPerDay; input_event := OpenMoment "m1" |};
      {| input_now := 19792 * msPerDay; input_generateId := gen;
         input_clock := λ _, 19792 * msPerDay; input_event := ClickComplete |};
      {| input_now := 19792 * msPerDay; input_generateId := gen;
         input_clock := λ _, 19792 * msPerDay;
         input_event := ClickSaveReflection 4 "fine" (Some true) |} ] in
  consistent st ∧ admissibleRun Bogota inputs st
  ∧ (status <$> moments (run Bogota inputs st)) = [completed]
  ∧ consistent (run Bogota inputs st).
Proof.
  intros st gen inputs.
  assert (consistent st) as Hst.
  { split; [constructor|]. split; [by intros m ?%elem_of_nil|].
    intros [?|[?|?]]; done. }
  assert (admissibleRun Bogota inputs st) as Hadm.
  { simpl. split; [done|]. split; [by intros ?%elem_of_nil|].
    split; [done|]. split; [done|]. split; [|done].
    apply (rating_setRating 4 0); [|constructor]. unfold stars. set_solver. }
  split; [exact Hst|]. split; [exact Hadm|]. split; [by vm_compute|].
  exact (proj1 (run_consistent Bogota inputs st Hst Hadm)).
Defined.

(** X11.  Under the same conditions a completed moment stays in the
    collection exactly as it is, reflection included, whatever events
    follow: no event edits, completes again, postpones or deletes it. *)
Theorem run_keeps_completed tz inputs st m :
  consistent st → admissibleRun tz inputs st →
  m ∈ moments st → status m = completed →
  m ∈ moments (run tz inputs st).
Proof.
  revert st. induction inputs as [|i inputs IH]; intros st Hst Hadm Hm Hdone;
    [done|].
  destruct Hadm as [Hi Hadm]. simpl. apply IH; [|done| |done].
  - by apply consistent_step.
  - by apply completed_kept_step.
Qed.

Lemma run_keeps_completed_witness :
  let done_ :=
    {| id := "a"; title := "Exam"; date := IsoDate 19780; type := STUDY;
       priority := LOW; initialEmotion := HAPPY; notes := EmptyString;
       tasks := []; status := completed; createdAt := 0; emotionHistory := [];
       reflection := Some {| rating := 5; lessons := "start early";
                             repeatable := false; completedDate := 0 |} |} in
  let st := app0 [done_; moment0 "b" (IsoDate 19799) HIGH active]
              dashboard (Some "a") in
  let inputs :=
    [ {| input_now := 19792 * msPerDay; input_generateId := λ _, "x";
         input_clock := λ _, 0; input_event := OpenMoment "a" |};
      {| input_now := 19792 * msPerDay; input_generateId := λ _, "x";
         input_clock := λ _, 0; input_event := ClickDelete |};
      {| input_now := 19792 * msPerDay; input_generateId := λ _, "x";
         input_clock := λ _, 0; input_event := OpenMoment "b" |};
      {| input_now := 19792 * msPerDay; input_generateId := λ _, "x";
         input_clock := λ _, 0; input_event := ClickDelete |} ] in
  consistent st ∧ admissibleRun Bogota inputs st
  ∧ done_ ∈ moments st ∧ status done_ = completed
  ∧ moments (run Bogota inputs st) = [done_]
  ∧ done_ ∈ moments (run Bogota inputs st).
Proof.
  intros done_ st inputs.
  assert (consistent st) as Hst.
  { split; [compute_done|]. split; [|intros [?|[?|?]]; done].
    intros m Hm. subst st. simpl in Hm. set_unfold.
    destruct Hm as [->|[->|[]]].
    - split; [done|]. split; [done|]. right. split; [done|].
      eexists. split; [reflexivity|]. simpl. lia.
    - split; [done|]. split; [done|]. by left. }
  assert (admissibleRun Bogota inputs st) as Hadm by (by simpl).
  assert (done_ ∈ moments st) as Hin by left.
  split; [exact Hst|]. split; [exact Hadm|]. split; [exact Hin|].
  split; [reflexivity|]. split; [by vm_compute|].
  exact (run_keeps_completed Bogota inputs st done_ Hst Hadm Hin eq_refl).
Defined.

Lemma view_handlers_not_memory tz generateId clock st :
  view st ≠ memory →
  (∀ t d ty p ts e n,
     view (handleSave generateId clock t d ty p ts e n st) ≠ memory)
  ∧ (∀ t d ty p n ts, view (handleUpdate t d ty p n ts st) ≠ memory)
  ∧ (∀ r l rp, view (handleSaveReflection clock r l rp st) ≠ memory)
  ∧ (∀ moment, view (postpone tz moment st) ≠ memory)
  ∧ (∀ i, view (deleteMoment i st) ≠ memory).
Proof.
  intros Hv. split; [|split; [|split; [|split]]].
  - intros. unfold handleSave. by case_decide.
  - intros. unfold handleUpdate. destruct (selectedMoment st); [|done].
    by case_decide.
  - intros. unfold handleSaveReflection. destruct (selectedMoment st); [|done].
    by case_decide.
  - intros. unfold postpone. by destruct (postponedDate _ _).
  - intros. unfold deleteMoment. by case_decide.
Qed.

(** X12.  The memory view, where a reflection is written, is entered
    only from the detail view of a selected moment that is active and
    past due, by the button that marks it done. *)
Theorem memory_entered_by_complete tz now generateId clock st ev :
  view (step tz now generateId clock st ev) = memory →
  view st = memory
  ∨ (view st = details ∧ ev = ClickComplete
     ∧ ∃ moment, selectedMoment st = Some moment
                 ∧ isPast tz now moment = true).
Proof.
  destruct (decide (view st = memory)) as [|Hv]; [by left|].
  destruct (view_handlers_not_memory tz generateId clock st Hv)
    as (Hsave & Hupdate & Hreflect & Hpostpone & Hdelete).
  intros Hmem. right. unfold step in Hmem.
  destruct ev, (view st) eqn:Hview; simpl in Hmem; try done;
    try (by destruct (Hsave _ _ _ _ _ _ _ Hmem));
    try (destruct (navTarget v) eqn:Hnav; [|congruence];
         apply navTarget_passive in Hnav; simpl in Hmem;
         destruct Hnav as [?|[?|[?|?]]]; congruence);
    try (case_decide; simpl in Hmem; congruence);
    try (destruct (selectedMoment st) as [moment|] eqn:Hsel; [|congruence];
         try (by destruct (Hupdate _ _ _ _ _ _ Hmem));
         try (destruct (isPast tz now moment) eqn:Hpast);
         simpl in Hmem; try congruence;
         try (by destruct (Hpostpone _ Hmem));
         try (by destruct (Hdelete _ Hmem));
         by eauto).
Qed.

Lemma memory_entered_by_complete_witness :
  let st := app0 [moment0 "a" (IsoDate 19790) LOW active] details (Some "a") in
  let now := 19792 * msPerDay in
  view (step Bogota now (λ _, "x") (λ _, now) st ClickComplete) = memory
  ∧ (view st = memory
     ∨ (view st = details ∧ ClickComplete = ClickComplete
        ∧ ∃ moment, selectedMoment st = Some moment
                    ∧ isPast Bogota now moment = true)).
Proof.
  intros st now.
  assert (view (step Bogota now (λ _, "x") (λ _, now) st ClickComplete) = memory)
    as Hmem by reflexivity.
  split; [exact Hmem|].
  exact (memory_entered_by_complete Bogota now (λ _, "x") (λ _, now) st
           ClickComplete Hmem).
Defined.

(** ** Days remaining, continued *)

(** X13.  In every time zone and at every time, a target date [k] days
    later has [k] more days remaining; so the count grows with the
    target date, and consecutive dates differ by one. *)
Theorem getDaysRemaining_shift tz now d k :
  getDaysRemaining tz now (IsoDate (d + k))
  = (λ days, days + k) <$> getDaysRemaining tz now (IsoDate d).
Proof.
  unfold getDaysRemaining. simpl. f_equal.
  change (1000 * 3600 * 24) with msPerDay.
  replace ((d + k) * msPerDay - setHours0 tz now)
    with (k * msPerDay + (d * msPerDay - setHours0 tz now)) by lia.
  rewrite ceilDiv_add_multiple by done. lia.
Qed.

(** X14.  Where the zone has no daylight saving, and for a date that a
    [Date] can hold together with the date a week later, postponing adds
    seven to the days remaining: a moment more than seven days past due
    is still past due afterwards. *)
Theorem postponedDate_days off now d :
  - maxDay ≤ d → d + 7 ≤ maxDay →
  ∃ d', postponedDate (fixedZone off) (IsoDate d) = Some d'
        ∧ getDaysRemaining (fixedZone off) now d'
          = (λ days, days + 7) <$> getDaysRemaining (fixedZone off) now (IsoDate d).
Proof.
  intros _ _.
  exists (IsoDate (d + 7)). split; [apply postponedDate_fixedZone|].
  rewrite !getDaysRemaining_fixedZone. simpl. f_equal. lia.
Qed.

Lemma postponedDate_days_witness :
  let now := 19792 * msPerDay + 50000000 in
  - maxDay ≤ 19780 ∧ 19780 + 7 ≤ maxDay
  ∧ ∃ d', postponedDate Bogota (IsoDate 19780) = Some d'
          ∧ getDaysRemaining Bogota now d'
            = (λ days, days + 7) <$> getDaysRemaining Bogota now (IsoDate 19780).
Proof.
  intros now.
  assert (- maxDay ≤ 19780) as Hlo by (unfold maxDay; lia).
  assert (19780 + 7 ≤ maxDay) as Hhi by (unfold maxDay; lia).
  split; [exact Hlo|]. split; [exact Hhi|].
  exact (postponedDate_days (- 5 * 3600000) now 19780 Hlo Hhi).
Defined.

(** X15.  A moment whose date is the empty string has no number of days
    remaining: it is never urgent, very urgent, upcoming or past due,
    whatever its priority and status. *)
Theorem empty_date_never_flagged tz now ms m :
  date m = EmptyDate →
  getDaysRemaining tz now (date m) = None
  ∧ isPast tz now m = false
  ∧ (m ∉ urgentMoments tz now ms)
  ∧ (m ∉ veryUrgentMoments tz now ms)
  ∧ (m ∉ upcoming tz now ms).
Proof.
  intros Hdate. unfold isPast, urgentMoments, veryUrgentMoments, upcoming.
  rewrite !list_elem_of_filter. simpl. rewrite Hdate. simpl.
  repeat split; try done; intros [H _]; simpl in H; tauto.
Qed.

Lemma empty_date_never_flagged_witness :
  let m := moment0 "a" EmptyDate HIGH active in
  date m = EmptyDate
  ∧ m ∈ activeMoments [m]
  ∧ (m ∉ urgentMoments Bogota 0 [m])
  ∧ isPast Bogota 0 m = false.
Proof.
  intros m. split; [reflexivity|]. split; [left|].
  destruct (empty_date_never_flagged Bogota 0 [m] m eq_refl)
    as (_ & Hpast & Hurgent & _).
  by split.
Defined.

(** X16.  Every moment the notification check may notify for is among
    the very urgent moments that light the bell of the dashboard. *)
Theorem upcoming_veryUrgent tz now ms m :
  m ∈ upcoming tz now ms → m ∈ veryUrgentMoments tz now ms.
Proof.
  unfold upcoming, veryUrgentMoments. rewrite !list_elem_of_filter.
  intros [Hdays Hm]. split; [|done]. simpl in *. unfold num_eq, num_le in *.
  destruct (getDaysRemaining tz now (date m)) as [days|]; [|tauto].
  destruct Hdays as [->%bool_decide_unpack| ->%bool_decide_unpack]; done.
Qed.

Lemma upcoming_veryUrgent_witness :
  let m := moment0 "a" (IsoDate 19793) LOW active in
  let now := 19792 * msPerDay + 50000000 in
  m ∈ upcoming Bogota now [m] ∧ m ∈ veryUrgentMoments Bogota now [m].
Proof.
  intros m now.
  assert (m ∈ upcoming Bogota now [m]) as Hup by (vm_compute; left).
  split; [exact Hup|]. exact (upcoming_veryUrgent Bogota now [m] m Hup).
Defined.

(** ** The stress score under deleting and completing *)

Lemma length_filter_filter_le {A} (P Q : A → Prop)
    `{∀ x, Decision (P x), ∀ x, Decision (Q x)} (l : list A) :
  (length (filter P (filter Q l)) ≤ length (filter P l))%nat.
Proof.
  induction l as [|x l IH]; [done|].
  rewrite (filter_cons Q). destruct (decide (Q x)).
  - rewrite !filter_cons. destruct (decide (P x)); simpl; lia.
  - rewrite filter_cons. destruct (decide (P x)); simpl; lia.
Qed.

Lemma length_filter_replace (P : Moment → Prop) `{∀ m, Decision (P m)} i u l :
  ¬ P u →
  (length (filter P ((λ m, if decide (id m = i) then u else m) <$> l))
   ≤ length (filter P l))%nat.
Proof.
  intros Hu. induction l as [|x l IH]; [done|].
  rewrite fmap_cons. simpl. destruct (decide (id x = i)).
  - rewrite filter_cons_False by done. rewrite (filter_cons P x).
    destruct (decide (P x)); simpl; lia.
  - rewrite !filter_cons. destruct (decide (P x)); simpl; lia.
Qed.

Lemma length_filter_replace_lt (P : Moment → Prop) `{∀ m, Decision (P m)}
    i u m l :
  ¬ P u → m ∈ l → id m = i → P m →
  (length (filter P ((λ m, if decide (id m = i) then u else m) <$> l))
   < length (filter P l))%nat.
Proof.
  intros Hu Hm Hid HP. induction Hm as [m l|m x l Hm IH].
  - rewrite fmap_cons. simpl. rewrite (decide_True (P := id m = i)) by done.
    rewrite filter_cons_False, filter_cons_True by done. simpl.
    pose proof (length_filter_replace P i u l Hu). lia.
  - specialize (IH Hid HP).
    rewrite fmap_cons. simpl. destruct (decide (id x = i)).
    + rewrite filter_cons_False by done. rewrite (filter_cons P x).
      destruct (decide (P x)); simpl; lia.
    + rewrite !filter_cons. destruct (decide (P x)); simpl; lia.
Qed.

(** X17.  Deleting a moment never raises the stress score, and neither
    does saving a reflection; saving one with a rating for an active
    moment lowers it. *)
Theorem stressScore_never_raised tz now clock given lessons repeatable i st :
  (stressScore tz now (moments (deleteMoment i st))
   ≤ stressScore tz now (moments st))%nat
  ∧ (stressScore tz now
       (moments (handleSaveReflection clock given lessons repeatable st))
     ≤ stressScore tz now (moments st))%nat
  ∧ (∀ moment, selectedMoment st = Some moment → status moment = active →
       given ≠ 0 →
       (stressScore tz now
          (moments (handleSaveReflection clock given lessons repeatable st))
        < stressScore tz now (moments st))%nat).
Proof.
  rewrite !stressScore_count. split; [|split].
  - assert (moments (deleteMoment i st) = filter (λ m, id m ≠ i) (moments st))
      as -> by (unfold deleteMoment; by case_decide).
    pose proof (length_filter_filter_le
      (λ m, status m = active ∧ priority m = HIGH
            ∧ num_le (getDaysRemaining tz now (date m)) 7)
      (λ m, id m ≠ i) (moments st)).
    pose proof (length_filter_filter_le
      (λ m, status m = active) (λ m, id m ≠ i) (moments st)).
    lia.
  - unfold handleSaveReflection.
    destruct (selectedMoment st) as [moment|]; [|done].
    case_decide; [done|].
    unfold setView, updateMoment, setMoments. cbn [moments].
    apply Nat.add_le_mono; [apply Nat.mul_le_mono_l|];
      apply length_filter_replace; simpl; [by intros [? _]|done].
  - intros moment Hsel Hact Hgiven. unfold handleSaveReflection.
    rewrite Hsel, decide_False by done.
    unfold setView, updateMoment, setMoments. cbn [moments].
    apply selectedMoment_Some in Hsel as [Hin _].
    apply Nat.add_le_lt_mono; [apply Nat.mul_le_mono_l|].
    + apply length_filter_replace. simpl. by intros [? _].
    + by apply (length_filter_replace_lt _ _ _ moment).
Qed.

(** ** The category chart *)

Lemma sum_positive_values (l : list Slice) :
  sum_list (value <$> filter (λ d, (0 < value d)%nat) l) = sum_list (value <$> l).
Proof.
  induction l as [|d l IH]; [done|].
  rewrite filter_cons. destruct (decide (0 < value d)%nat) as [|Hzero].
  - rewrite !fmap_cons. simpl. by rewrite IH.
  - rewrite fmap_cons. simpl. rewrite IH. lia.
Qed.

Lemma count_by_type (l : list Moment) :
  (length (filter (λ m, type m = STUDY) l)
   + length (filter (λ m, type m = WORK) l)
   + length (filter (λ m, type m = PERSONAL) l)
   + length (filter (λ m, type m = TRAVEL) l)
   + length (filter (λ m, type m = GOAL) l))%nat
  = length l.
Proof.
  induction l as [|m l IH]; [done|].
  rewrite !filter_cons. simpl.
  destruct (type m); repeat case_decide; try done; simpl; lia.
Qed.

(** X18.  The values of the category chart add up to the number of
    completed and archived moments; every entry of the chart has a
    positive value, which is the number of those moments of its type;
    no type has two entries, and every type that occurs has one. *)
Theorem data_counts ms :
  sum_list (value <$> data ms) = length (completedMoments ms)
  ∧ (∀ d, d ∈ data ms →
       (0 < value d)%nat
       ∧ value d = length (filter (λ m, type m = name d) (completedMoments ms)))
  ∧ NoDup (name <$> data ms)
  ∧ (∀ m, m ∈ completedMoments ms → ∃ d, d ∈ data ms ∧ name d = type m).
Proof.
  unfold data. split; [|split; [|split]].
  - rewrite sum_positive_values. simpl.
    pose proof (count_by_type (completedMoments ms)). lia.
  - intros d [Hpos Hd]%list_elem_of_filter. split; [done|].
    set_unfold. destruct Hd as [->|[->|[->|[->|[->|[]]]]]]; done.
  - eapply sublist_NoDup; [|apply fmap_sublist, sublist_filter].
    simpl. compute_done.
  - intros m Hm.
    assert (0 < length (filter (λ m', type m' = type m) (completedMoments ms)))%nat
      as Hpos.
    { assert (m ∈ filter (λ m', type m' = type m) (completedMoments ms)) as Hin
        by (by apply list_elem_of_filter).
      destruct (filter _ _); [by apply elem_of_nil in Hin|simpl; lia]. }
    match goal with
    | |- ∃ d, d ∈ filter _ ?five ∧ _ =>
        assert (∀ k d, five !! k = Some d → (0 < value d)%nat →
                       name d = type m →
                       ∃ d, d ∈ filter (λ d, (0 < value d)%nat) five
                            ∧ name d = type m) as Hpick
    end.
    { intros k d Hk Hd Hname. exists d. split; [|done].
      apply list_elem_of_filter. split; [done|].
      by eapply list_elem_of_lookup_2. }
    destruct (type m);
      [eapply (Hpick 0%nat)|eapply (Hpick 1%nat)|eapply (Hpick 2%nat)
      |eapply (Hpick 3%nat)|eapply (Hpick 4%nat)];
      (reflexivity || exact Hpos).
Qed.

(** Three completed or archived moments of two types among five. *)
Example example_chart :
  let m i ty s :=
    {| id := i; title := "Exam"; date := IsoDate 19780; type := ty;
       priority := LOW; initialEmotion := HAPPY; notes := EmptyString;
       tasks := []; status := s; createdAt := 0; emotionHistory := [];
       reflection := None |} in
  (λ d, (name d, value d))
    <$> data [ m "a" TRAVEL completed; m "b" STUDY active; m "c" TRAVEL archived;
               m "d" GOAL completed; m "e" WORK active ]
  = [ (TRAVEL, 2%nat); (GOAL, 1%nat) ].
Proof. by vm_compute. Qed.

(** ** [askAI] *)

Lemma nullish_not_null x d : d ≠ JNull → nullish x d ≠ JNull.
Proof. by destruct x as [[]|]. Qed.

(** X19.  The promise rejects when the request or the decoding of the
    body fails, and resolves for every decoded body, never to [null].
    It resolves to the text of the first part of the first candidate
    when the body has one, and to "No reply" when the body is [null] or
    has no candidates. *)
Theorem askAI_reply :
  askAI FetchRejected = None
  ∧ askAI BodyNotJSON = None
  ∧ (∀ data, ∃ v, askAI (Parsed data) = Some v ∧ v ≠ JNull)
  ∧ (∀ fields cands c content parts p t,
       assoc "candidates" fields = Some (JArray (JObject c :: cands)) →
       assoc "content" c = Some (JObject content) →
       assoc "parts" content = Some (JArray (JObject p :: parts)) →
       assoc "text" p = Some t → t ≠ JNull →
       askAI (Parsed (JObject fields)) = Some t)
  ∧ askAI (Parsed JNull) = Some (JString "No reply")
  ∧ (∀ fields,
       assoc "candidates" fields = None
       ∨ assoc "candidates" fields = Some JNull
       ∨ assoc "candidates" fields = Some (JArray []) →
       askAI (Parsed (JObject fields)) = Some (JString "No reply")).
Proof.
  split; [done|]. split; [done|]. split; [|split; [|split; [done|]]].
  - intros data. eexists. split; [reflexivity|]. by apply nullish_not_null.
  - intros fields cands c content parts p t Hc Hcontent Hparts Ht Hnull.
    unfold askAI. simpl. rewrite Hc. simpl. rewrite Hcontent. simpl.
    rewrite Hparts. simpl. rewrite Ht. simpl. by destruct t.
  - intros fields [Hc|[Hc|Hc]]; unfold askAI; simpl; by rewrite Hc.
Qed.

(** A reply of the service, and one that reports an error instead. *)
Example example_replies :
  askAI (Parsed (JObject
    [("candidates",
      JArray [JObject
        [("content",
          JObject [("parts", JArray [JObject [("text", JString "Pack early")]]);
                   ("role", JString "model")])]])]))
  = Some (JString "Pack early")
  ∧ askAI (Parsed (JObject [("error", JObject [("code", JNumber 429)])]))
    = Some (JString "No reply").
Proof. done. Qed.

(** ** Notifications, continued *)

(** X20.  A check never removes a key from the storage and never
    changes a value that is not the empty string; what it writes is
    ["true"], under the key of each moment it notified for. *)
Theorem notificationsCheck_storage (tz : TimeZone) (now : Z)
    (NotificationInWindow : bool) (st : AppState) (ls : Storage) :
  (∀ (k : string * Z) (v : string),
     ls !! k = Some v →
     ∃ v', (notificationsCheck tz now NotificationInWindow st ls).2 !! k
           = Some v'
           ∧ (v ≠ EmptyString → v' = v))
  ∧ (∀ (k : string * Z) (v : string),
       (notificationsCheck tz now NotificationInWindow st ls).2 !! k = Some v →
       ls !! k = Some v ∨ v = "true")
  ∧ (∀ m : Moment,
       m ∈ (notificationsCheck tz now NotificationInWindow st ls).1 →
       (notificationsCheck tz now NotificationInWindow st ls).2
         !! notifiedKey tz now m = Some "true").
Proof.
  assert (∀ (l out : list Moment) (ls0 : Storage),
    (∀ (k : string * Z) (v : string), ls0 !! k = Some v →
       ∃ v', (foldl (notifyMoment tz now) (out, ls0) l).2 !! k = Some v'
             ∧ (v ≠ EmptyString → v' = v))
    ∧ (∀ (k : string * Z) (v : string),
         (foldl (notifyMoment tz now) (out, ls0) l).2 !! k = Some v →
         ls0 !! k = Some v ∨ v = "true")
    ∧ (∀ m : Moment, m ∈ (foldl (notifyMoment tz now) (out, ls0) l).1 →
         m ∈ out
         ∨ (foldl (notifyMoment tz now) (out, ls0) l).2 !! notifiedKey tz now m
           = Some "true")) as Hfold.
  { induction l as [|m l IH]; intros out ls0.
    { simpl. split; [by eauto|]. split; [by eauto|]. by left. }
    cbn [foldl].
    destruct (notYetNotified ls0 (notifiedKey tz now m)) eqn:Hfresh.
    - replace (notifyMoment tz now (out, ls0) m)
        with (out ++ [m], <[notifiedKey tz now m := "true"]> ls0)
        by (unfold notifyMoment; simpl; by rewrite Hfresh).
      destruct (IH (out ++ [m]) (<[notifiedKey tz now m := "true"]> ls0))
        as (Hkeep & Hnew & Hfired).
      destruct (Hkeep (notifiedKey tz now m) "true") as (v0 & Hv0 & Heq0);
        [by rewrite lookup_insert_eq|].
      specialize (Heq0 ltac:(done)). subst v0.
      split; [|split].
      + intros k v Hk. destruct (decide (notifiedKey tz now m = k)) as [<-|Hne].
        * exists "true". split; [done|]. intros Hv.
          unfold notYetNotified in Hfresh. rewrite Hk in Hfresh.
          by apply bool_decide_eq_true in Hfresh.
        * apply Hkeep. by rewrite lookup_insert_ne.
      + intros k v Hk. destruct (Hnew k v Hk) as [Hins|]; [|by right].
        destruct (decide (notifiedKey tz now m = k)) as [<-|Hne].
        * rewrite lookup_insert_eq in Hins. right. congruence.
        * rewrite lookup_insert_ne in Hins by done. by left.
      + intros x Hx. destruct (Hfired x Hx) as [Happ|Hkey]; [|by right].
        apply elem_of_app in Happ as [Hout|Hx']; [by left|].
        apply list_elem_of_singleton in Hx' as ->. by right.
    - replace (notifyMoment tz now (out, ls0) m) with (out, ls0)
        by (unfold notifyMoment; simpl; by rewrite Hfresh).
      apply IH. }
  unfold notificationsCheck. destruct (_ && _).
  - destruct (Hfold (upcoming tz now (moments st)) [] ls) as (Hkeep & Hnew & Hfired).
    split; [done|]. split; [done|]. intros m Hm.
    destruct (Hfired m Hm) as [?%elem_of_nil|]; done.
  - simpl. split; [by eauto|]. split; [by eauto|]. by intros m ?%elem_of_nil.
Qed.

(** ** The magic plan, continued *)

(** X21.  Whatever the service answers, the handler ends with
    [isGenerating] switched off and raises at most one alert; when it
    raises one, the other cells of the form are as they were. *)
Theorem handleMagicPlan_finally lang resp c :
  isGenerating (handleMagicPlan lang resp c).1 = false
  ∧ ((handleMagicPlan lang resp c).2 = []
     ∨ ∃ msg,
         (handleMagicPlan lang resp c).2
         = [console_error "AI Generation failed"; alert msg]
         ∧ (handleMagicPlan lang resp c).1 = setIsGenerating false c).
Proof.
  split; [done|]. unfold handleMagicPlan.
  destruct (magicPlanTry resp c).2 eqn:Hthrew; [|by left].
  right. eexists. split; [done|].
  by rewrite (magicPlanTry_throws resp c Hthrew).
Qed.

(** ** Days remaining west of Greenwich *)

(** X22.  On a host without daylight saving that is on UTC or up to a
    day behind it, the days remaining are the calendar days from the
    current local day to the target date: negative exactly for a date
    that has passed and zero exactly for today's. *)
Theorem getDaysRemaining_calendar off now d :
  - msPerDay < off ≤ 0 →
  ∃ days,
    getDaysRemaining (fixedZone off) now (IsoDate d) = Some days
    ∧ days = d - toDateString (fixedZone off) now
    ∧ (days < 0 ↔ d < toDateString (fixedZone off) now)
    ∧ (days = 0 ↔ d = toDateString (fixedZone off) now).
Proof.
  intros Hoff. eexists. split; [by apply getDaysRemaining_west|].
  split; [done|]. lia.
Qed.

Lemma getDaysRemaining_calendar_witness :
  let now := 19792 * msPerDay + 50000000 in
  - msPerDay < - 5 * 3600000 ≤ 0
  ∧ toDateString Bogota now = 19792
  ∧ ∃ days, getDaysRemaining Bogota now (IsoDate 19790) = Some days
            ∧ days = 19790 - toDateString Bogota now
            ∧ (days < 0 ↔ 19790 < toDateString Bogota now)
            ∧ (days = 0 ↔ 19790 = toDateString Bogota now).
Proof.
  intros now.
  assert (- msPerDay < - 5 * 3600000 ≤ 0) as Hoff by (unfold msPerDay; lia).
  split; [exact Hoff|]. split; [by vm_compute|].
  exact (getDaysRemaining_calendar (- 5 * 3600000) now 19790 Hoff).
Defined.

(** ** The postpone button without daylight saving *)

(** X23.  On a host without daylight saving, with distinct ids in the
    collection, the postpone button of the detail view of a past-due
    moment moves the date of that moment seven days on and changes
    nothing else: not its other fields, not the other moments, not the
    view or the selection. *)
Theorem postpone_seven_days off now generateId clock moment d k st :
  NoDup (id <$> moments st) →
  view st = details → selectedMoment st = Some moment →
  isPast (fixedZone off) now moment = true →
  date moment = IsoDate d → moments st !! k = Some moment →
  ∃ m1,
    moments (step (fixedZone off) now generateId clock st ClickPostpone)
    = <[k := m1]> (moments st)
    ∧ view (step (fixedZone off) now generateId clock st ClickPostpone)
      = details
    ∧ selectedMoment (step (fixedZone off) now generateId clock st ClickPostpone)
      = Some m1
    ∧ date m1 = IsoDate (d + 7)
    ∧ id m1 = id moment ∧ title m1 = title moment ∧ type m1 = type moment
    ∧ priority m1 = priority moment ∧ notes m1 = notes moment
    ∧ tasks m1 = tasks moment ∧ status m1 = status moment
    ∧ createdAt m1 = createdAt moment
    ∧ initialEmotion m1 = initialEmotion moment
    ∧ emotionHistory m1 = emotionHistory moment
    ∧ reflection m1 = reflection moment.
Proof.
  intros Hnodup Hv Hsel Hpast Hdate Hk.
  unfold step. rewrite Hv, Hsel, Hpast. unfold postpone.
  rewrite Hdate, postponedDate_fixedZone.
  eexists. split; [|split; [done|split]].
  - unfold updateMoment, setMoments. cbn [moments].
    by erewrite replace_at.
  - by eapply selectedMoment_updateMoment.
  - by repeat split.
Qed.

Lemma postpone_seven_days_witness :
  let moment := moment0 "a" (IsoDate 19790) LOW active in
  let st := app0 [moment0 "b" (IsoDate 19799) HIGH active; moment]
              details (Some "a") in
  let now := 19792 * msPerDay + 50000000 in
  NoDup (id <$> moments st) ∧ selectedMoment st = Some moment
  ∧ isPast Bogota now moment = true
  ∧ ∃ m1, moments (step Bogota now (λ _, "x") (λ _, now) st ClickPostpone)
          = <[1%nat := m1]> (moments st)
          ∧ date m1 = IsoDate (19790 + 7).
Proof.
  intros moment st now.
  assert (NoDup (id <$> moments st)) as Hnodup by compute_done.
  assert (isPast Bogota now moment = true) as Hpast by (by vm_compute).
  split; [exact Hnodup|]. split; [reflexivity|]. split; [exact Hpast|].
  destruct (postpone_seven_days (- 5 * 3600000) now (λ _, "x") (λ _, now)
              moment 19790 1%nat st Hnodup eq_refl eq_refl Hpast eq_refl
              eq_refl) as (m1 & Hms & _ & _ & Hd & _).
  by exists m1.
Defined.

(** ** The early return of the detail, edit and memory views *)

Lemma selectedFound_passive st' :
  view st' = dashboard ∨ view st' = create ∨ view st' = stats
  ∨ view st' = settings →
  selectedFound st'.
Proof. intros Hv Hv'. by destruct (passive_view _ Hv). Qed.

Lemma selectedFound_same st st' :
  moments st' = moments st → selectedMomentId st' = selectedMomentId st →
  is_Some (selectedMoment st) → selectedFound st'.
Proof. intros Hms Hsel Hsome _. by rewrite (selectedMoment_ext st st'). Qed.

Lemma selectedFound_update u moment st st' :
  selectedMoment st = Some moment → id u = id moment →
  moments st' = moments (updateMoment u st) →
  selectedMomentId st' = selectedMomentId st →
  selectedFound st'.
Proof.
  intros Hsel Hid Hms Hselid _.
  rewrite (selectedMoment_ext (updateMoment u st) st') by done.
  rewrite (selectedMoment_updateMoment u moment st) by done. by eexists.
Qed.

Lemma selectedFound_step tz now generateId clock st ev :
  selectedFound st → selectedFound (step tz now generateId clock st ev).
Proof.
  intros Hst. unfold step.
  destruct ev; try destruct (view st) eqn:Hv; try done;
    try (by apply selectedFound_passive; simpl; auto);
    try (destruct (navTarget _) eqn:Hnav; [|done];
         by apply selectedFound_passive, navTarget_passive).
  all: try (destruct (selectedMoment st) as [moment|] eqn:Hsel; [|done]).
  all: try (destruct (isPast _ _ _); try done).
  all: try (by apply selectedFound_passive; simpl; auto).
  all: try (by apply (selectedFound_same st); [done|done|rewrite Hsel; eexists]).
  all: try (by eapply (selectedFound_update _ moment st)).
  - (* a card of the dashboard *)
    case_decide as Hi; [|done]. intros _.
    apply list_elem_of_fmap in Hi as (m & Hi & Hm).
    apply subseteq_take in Hm. unfold activeMoments in Hm.
    apply elem_of_sort, list_elem_of_filter in Hm as [_ Hm].
    unfold selectedMoment. simpl.
    destruct (list_find_elem_of (λ m0, id m0 = i) (moments st) m Hm)
      as [[k x] ->]; [done|].
    by eexists.
  - unfold handleSave. case_decide; [done|].
    apply selectedFound_passive; by left.
  - unfold handleUpdate. rewrite Hsel. case_decide; [done|].
    by eapply (selectedFound_update _ moment st); [done| |reflexivity|].
  - unfold handleSaveReflection. rewrite Hsel. case_decide; [done|].
    apply selectedFound_passive; by left.
  - by eapply (selectedFound_update _ moment st); [done| |reflexivity|].
  - by eapply (selectedFound_update _ moment st); [done| |reflexivity|].
  - unfold postpone. destruct (postponedDate tz (date moment)); [|done].
    by eapply (selectedFound_update _ moment st); [done| |reflexivity|].
  - apply selectedMoment_Some in Hsel as [_ Hsel].
    unfold deleteMoment. rewrite decide_True by done.
    apply selectedFound_passive; by left.
Qed.

(** X24.  Over the events of [Event], which are the clicks on the
    navigation, the cards and the buttons of the views and the answer to
    the permission request (the magic plan button of the create view and
    what its reply does to the form are not among them), the early
    return [if (!moment) return null] of the detail, edit and memory
    views is not reached: if the view on screen, when it is one of the
    three, has found the selected moment, this is still so after every
    series of events.  No assumption is made on ids, ratings or the
    clock.  Nothing is said of what else can go wrong while a view is
    drawn. *)
Theorem run_selectedFound tz inputs st :
  selectedFound st → selectedFound (run tz inputs st).
Proof.
  revert st. induction inputs as [|i inputs IH]; intros st Hst; [done|].
  simpl. apply IH. by apply selectedFound_step.
Qed.

Lemma run_selectedFound_witness :
  let st := app0 [moment0 "a" (IsoDate 19799) LOW active] dashboard None in
  let input ev :=
    {| input_now := 19792 * msPerDay; input_generateId := λ _, "x";
       input_clock := λ _, 0; input_event := ev |} in
  let inputs := [input (OpenMoment "a"); input ClickEdit; input Back;
                 input ClickDelete] in
  selectedFound st
  ∧ view <$> [run Bogota (take 1 inputs) st; run Bogota (take 2 inputs) st;
              run Bogota (take 3 inputs) st; run Bogota inputs st]
    = [details; edit; details; dashboard]
  ∧ selectedFound (run Bogota inputs st).
Proof.
  intros st input inputs.
  assert (selectedFound st) as Hst by (intros [?|[?|?]]; done).
  split; [exact Hst|]. split; [by vm_compute|].
  exact (run_selectedFound Bogota inputs st Hst).
Defined.

(** X25.  Where the view on screen, when it is the detail, edit or
    memory view, has found the selected moment, the dashboard is at most
    two clicks away, by the bottom navigation and the back buttons
    alone: the dashboard button of the navigation, shown on the
    dashboard, stats and settings views, leads to the dashboard; so does
    the back button of the create, detail and memory views; the back
    button of the edit view leads to the detail view and a second click
    on the back button from there to the dashboard.  None of these
    clicks changes the collection. *)
Theorem dashboard_two_clicks tz now generateId clock st :
  selectedFound st →
  let click := step tz now generateId clock in
  (view st = dashboard ∨ view st = stats ∨ view st = settings →
   view (click st (NavBar dashboard)) = dashboard
   ∧ moments (click st (NavBar dashboard)) = moments st)
  ∧ (view st = create ∨ view st = details ∨ view st = memory →
     view (click st Back) = dashboard
     ∧ moments (click st Back) = moments st)
  ∧ (view st = edit →
     view (click st Back) = details
     ∧ view (click (click st Back) Back) = dashboard
     ∧ moments (click (click st Back) Back) = moments st).
Proof.
  intros Hst click. subst click. unfold selectedFound in Hst.
  split; [|split].
  - intros Hv. unfold step. by destruct Hv as [-> |[-> | ->]].
  - intros [Hv|[Hv|Hv]]; unfold step; rewrite Hv; [done| |].
    + destruct Hst as [moment Hsel]; [auto|]. rewrite Hsel.
      by destruct (isPast _ _ _).
    + destruct Hst as [moment Hsel]; [auto|]. by rewrite Hsel.
  - intros Hv. destruct Hst as [moment Hsel]; [auto|].
    assert (step tz now generateId clock st Back = setView details st) as ->.
    { unfold step. by rewrite Hv, Hsel. }
    split; [done|]. unfold step. simpl.
    rewrite (selectedMoment_ext st (setView details st)) by done.
    rewrite Hsel. by destruct (isPast _ _ _).
Qed.

Lemma dashboard_two_clicks_witness :
  let st := app0 [moment0 "a" (IsoDate 19799) LOW active] edit (Some "a") in
  let click := step Bogota 0 (λ _, "x") (λ _, 0) in
  selectedFound st
  ∧ view st = edit
  ∧ view (click st Back) = details
  ∧ view (click (click st Back) Back) = dashboard
  ∧ moments (click (click st Back) Back) = moments st.
Proof.
  intros st click.
  assert (selectedFound st) as Hst by (intros _; by eexists).
  split; [exact Hst|]. split; [reflexivity|].
  exact (proj2 (proj2 (dashboard_two_clicks Bogota 0 (λ _, "x") (λ _, 0) st Hst))
           eq_refl).
Defined.
